(** * Verification of the status-matching engine of scip-callgraph

    Shallow embedding of [scripts/add_verification_status.py]:
    the path normalizer [normalize_path], the identity index builder
    [build_verification_lookup], the status resolver
    [find_verification_status] and the enrichment pass of [process_graph].

    Modelling conventions.
    - Python [str] is [string]; the string methods used by the script
      ([replace], [find], [in], slicing, [split], [join]) are defined below
      by recursion on the characters. The patterns the script searches for
      are ASCII, so the methods act alike on code points and on the bytes
      of the UTF-8 encoding.
    - A Python [dict] is an association list in insertion order
      ([Dict.set] overwrites in place or appends, as CPython does), because
      the resolver iterates over [lookup.items()].
    - Operations that can raise ([d[k]], [l[i]]) live in the error monad
      [result]; [d.get(k, default)] and [k in d] are total.
    - The JSON documents follow the schema of the tool: a field, when it is
      present, holds a value of the declared type (string, integer, object);
      a missing field is [None]. The builder is embedded a second time on
      untyped JSON values ([build_verification_lookup_json]), where a member
      may hold null or a value of another type and the method calls raise
      [AttributeError] and [TypeError] as in Python; on documents of the
      schema the two embeddings agree. *)

From Stdlib Require Import String Ascii List ZArith Bool Lia.
Import ListNotations.

Local Open Scope string_scope.
Local Open Scope list_scope.

(* ================================================================== *)
(** * Errors *)

Inductive exn : Type :=
| KeyError
| IndexError
| AttributeError
| TypeError.

Inductive result (A : Type) : Type :=
| Ok (a : A)
| Raise (e : exn).

Arguments Ok {A} a.
Arguments Raise {A} e.

Definition bind {A B : Type} (m : result A) (k : A -> result B) : result B :=
  match m with
  | Ok a => k a
  | Raise e => Raise e
  end.

Notation "x <- m ;; k" := (bind m (fun x => k))
  (at level 61, m at next level, right associativity).

(* ================================================================== *)
(** * Python string methods *)

Module PyStr.

(** [s.startswith(p)] *)
Fixpoint startswith (p s : string) : bool :=
  match p, s with
  | EmptyString, _ => true
  | String _ _, EmptyString => false
  | String a p', String b s' => if Ascii.eqb a b then startswith p' s' else false
  end.

(** Lowest index at which [sub] occurs in [s], if any. *)
Fixpoint index_of (sub s : string) : option nat :=
  if startswith sub s then Some O
  else match s with
       | EmptyString => None
       | String _ s' => option_map S (index_of sub s')
       end.

(** [s.find(sub)]: the lowest index, or [-1]. *)
Definition find (sub s : string) : Z :=
  match index_of sub s with
  | Some i => Z.of_nat i
  | None => (-1)%Z
  end.

(** [sub in s] *)
Definition contains (sub s : string) : bool :=
  match index_of sub s with
  | Some _ => true
  | None => false
  end.

Fixpoint drop (n : nat) (s : string) : string :=
  match n, s with
  | O, _ => s
  | S _, EmptyString => EmptyString
  | S n', String _ s' => drop n' s'
  end.

(** [s[i:]]; a negative [i] counts from the end of the string. *)
Definition slice_from (i : Z) (s : string) : string :=
  if (0 <=? i)%Z then drop (Z.to_nat i) s
  else drop (Z.to_nat (Z.of_nat (String.length s) + i)) s.

(** Scan of [s.replace(old, new)] for a non-empty [old]: [skip] counts the
    characters of a matched occurrence that are still to be consumed. *)
Fixpoint replace_scan (old new : string) (skip : nat) (s : string) : string :=
  match s with
  | EmptyString => EmptyString
  | String c s' =>
      match skip with
      | S k => replace_scan old new k s'
      | O =>
          if startswith old s
          then new ++ replace_scan old new (String.length old - 1) s'
          else String c (replace_scan old new O s')
      end
  end.

Fixpoint intersperse (new s : string) : string :=
  match s with
  | EmptyString => new
  | String c s' => new ++ String c (intersperse new s')
  end.

(** [s.replace(old, new)]: every non-overlapping occurrence, left to right;
    an empty [old] matches between all characters. *)
Definition replace (old new s : string) : string :=
  match old with
  | EmptyString => intersperse new s
  | String _ _ => replace_scan old new O s
  end.

(** [s.split(sep)] for a one-character separator; never the empty list. *)
Fixpoint split (sep : ascii) (s : string) : list string :=
  match s with
  | EmptyString => [EmptyString]
  | String c s' =>
      if Ascii.eqb c sep then EmptyString :: split sep s'
      else match split sep s' with
           | [] => [String c EmptyString]
           | p :: ps => String c p :: ps
           end
  end.

(** [sep.join(parts)] *)
Fixpoint join (sep : string) (parts : list string) : string :=
  match parts with
  | [] => EmptyString
  | [p] => p
  | p :: ps => p ++ sep ++ join sep ps
  end.

End PyStr.

(* ================================================================== *)
(** * Path normalizer *)

(** The loop [for i, part in enumerate(parts): if part == "src": return
    "/".join(parts[i:])]; [None] when the loop falls through. *)
Fixpoint join_from_src (parts : list string) : option string :=
  match parts with
  | [] => None
  | part :: parts' =>
      if String.eqb part "src" then Some (PyStr.join "/" parts)
      else join_from_src parts'
  end.

Definition normalize_path (path : string) : string :=
  let path := PyStr.replace "file://" "" path in
  if PyStr.contains "/src/" path then
    let src_idx := PyStr.find "/src/" path in
    PyStr.slice_from (src_idx + 1) path
  else
    let parts := PyStr.split "/" path in
    match join_from_src parts with
    | Some r => r
    | None => path
    end.

(* ================================================================== *)
(** * Python dictionaries (insertion ordered) and list subscripts *)

Module Dict.
Section Ops.
Context {K V : Type} (eq_dec : forall x y : K, {x = y} + {x <> y}).

(** [d.get(k)] *)
Fixpoint get (d : list (K * V)) (k : K) : option V :=
  match d with
  | [] => None
  | (k', v) :: d' => if eq_dec k k' then Some v else get d' k
  end.

(** [k in d] *)
Definition mem (d : list (K * V)) (k : K) : bool :=
  match get d k with Some _ => true | None => false end.

(** [d[k]] as an expression: raises [KeyError] on a missing key. *)
Definition getitem (d : list (K * V)) (k : K) : result V :=
  match get d k with Some v => Ok v | None => Raise KeyError end.

(** [d[k] = v]: an existing key keeps its position, a new key goes last. *)
Fixpoint set (d : list (K * V)) (k : K) (v : V) : list (K * V) :=
  match d with
  | [] => [(k, v)]
  | (k', v') :: d' =>
      if eq_dec k k' then (k', v) :: d' else (k', v') :: set d' k v
  end.
End Ops.
End Dict.

(** [l[i]]: raises [IndexError] out of range. *)
Definition list_getitem {A : Type} (l : list A) (i : nat) : result A :=
  match nth_error l i with
  | Some a => Ok a
  | None => Raise IndexError
  end.

(** [x.get(k, default)] on an optional member. *)
Definition get_default {A : Type} (o : option A) (default : A) : A :=
  match o with Some a => a | None => default end.

Fixpoint foldM {A B : Type} (f : A -> B -> result A) (a : A) (l : list B)
  : result A :=
  match l with
  | [] => Ok a
  | b :: l' => a' <- f a b ;; foldM f a' l'
  end.

(* ================================================================== *)
(** * Data model *)

(** The [code-text] object of a report record. *)
Record CodeText : Type := mkCodeText {
  lines_start : option Z;
  lines_end : option Z
}.

(** One record of the verification report; [None] is a missing member. *)
Record FunctionRecord : Type := mkFunctionRecord {
  func_display_name : option string;
  func_code_path : option string;
  func_code_text : option CodeText
}.

(** The report: the optional [verification] object maps category names to
    arrays of records. *)
Record VerificationData : Type := mkVerificationData {
  verification : option (list (string * list FunctionRecord))
}.

(** A node of the call graph. [verification_status] distinguishes a missing
    member ([None]) from a member holding null ([Some None]);
    [node_extra] carries every member the script never reads. *)
Record GraphNode : Type := mkGraphNode {
  node_id : option string;
  display_name : option string;
  relative_path : option string;
  full_path : option string;
  start_line : option Z;
  verification_status : option (option string);
  node_extra : list (string * string)
}.

Record GraphData : Type := mkGraphData {
  nodes : option (list GraphNode);
  graph_extra : list (string * string)
}.

(** Keys of [lookup]: the tuples [(name, path, lines_start)] and
    [(name, path)]. Tuples of different lengths are never equal. *)
Inductive key : Type :=
| Key3 (name path : string) (line : option Z)
| Key2 (name path : string).

Definition key_eq_dec (x y : key) : {x = y} + {x <> y}.
Proof.
  decide equality; try apply string_dec.
  decide equality. apply Z.eq_dec.
Defined.

Definition key_name (k : key) : string :=
  match k with Key3 n _ _ => n | Key2 n _ => n end.

Definition key_path (k : key) : string :=
  match k with Key3 _ p _ => p | Key2 _ p => p end.

(** The starred target [*rest] of the tuple unpacking. *)
Definition key_rest (k : key) : list (option Z) :=
  match k with Key3 _ _ l => [l] | Key2 _ _ => [] end.

(** An entry of a [by_name] list. *)
Record Match : Type := mkMatch {
  m_path : string;
  m_status : string;
  m_lines_start : option Z;
  m_lines_end : option Z
}.

Definition lookup_t : Type := list (key * string).
Definition by_name_t : Type := list (string * list Match).

(* ================================================================== *)
(** * Identity index builder *)

Definition status_mapping : list (string * string) :=
  [ ("verified_functions", "verified");
    ("failed_functions", "failed");
    ("unverified_functions", "unverified") ].

(** Body of the inner loop [for func in functions]. *)
Definition add_function (status : string) (acc : lookup_t * by_name_t)
    (func : FunctionRecord) : result (lookup_t * by_name_t) :=
  let '(lookup, by_name) := acc in
  let display_name := get_default (func_display_name func) "" in
  let code_path := get_default (func_code_path func) "" in
  let code_text := get_default (func_code_text func) (mkCodeText None None) in
  let lines_start := lines_start code_text in
  let lines_end := lines_end code_text in
  let normalized_path := normalize_path code_path in
  let primary_key := Key3 display_name normalized_path lines_start in
  let lookup := Dict.set key_eq_dec lookup primary_key status in
  let secondary_key := Key2 display_name normalized_path in
  let lookup :=
    if negb (Dict.mem key_eq_dec lookup secondary_key)
    then Dict.set key_eq_dec lookup secondary_key status
    else lookup in
  let by_name :=
    if negb (Dict.mem string_dec by_name display_name)
    then Dict.set string_dec by_name display_name []
    else by_name in
  l <- Dict.getitem string_dec by_name display_name ;;
  Ok (lookup,
      Dict.set string_dec by_name display_name
        (l ++ [mkMatch normalized_path status lines_start lines_end])).

(** Body of the outer loop [for key, status in status_mapping.items()]. *)
Definition add_category (verification : list (string * list FunctionRecord))
    (acc : lookup_t * by_name_t) (entry : string * string)
  : result (lookup_t * by_name_t) :=
  let '(key, status) := entry in
  let functions := get_default (Dict.get string_dec verification key) [] in
  foldM (add_function status) acc functions.

Definition build_verification_lookup (verification_data : VerificationData)
  : result (lookup_t * by_name_t) :=
  let verification := get_default (verification verification_data) [] in
  foldM (add_category verification) ([], []) status_mapping.

(* ================================================================== *)
(** * Status resolver *)

(** A strategy either returns a status ([Some]) or falls through ([None]);
    [m otherwise k] runs [k] only when [m] fell through. *)
Definition or_else (m k : result (option string)) : result (option string) :=
  r <- m ;;
  match r with
  | Some s => Ok (Some s)
  | None => k
  end.

Notation "m 'otherwise' k" := (or_else m k)
  (at level 62, right associativity).

Definition is_empty {A : Type} (l : list A) : bool :=
  match l with [] => true | _ :: _ => false end.

Definition is_none {A : Type} (o : option A) : bool :=
  match o with None => true | Some _ => false end.

(** [==] on values that are an integer or [None]. *)
Definition line_eqb (a b : option Z) : bool :=
  match a, b with
  | Some x, Some y => Z.eqb x y
  | None, None => true
  | _, _ => false
  end.

(** Strategy 1: exact match with line number. *)
Definition exact_triple (lookup : lookup_t) (display_name normalized_path : string)
    (start_line : option Z) : result (option string) :=
  match start_line with
  | Some _ =>
      let key1 := Key3 display_name normalized_path start_line in
      if Dict.mem key_eq_dec lookup key1
      then s <- Dict.getitem key_eq_dec lookup key1 ;; Ok (Some s)
      else Ok None
  | None => Ok None
  end.

(** Strategy 2: match without line number. *)
Definition exact_pair (lookup : lookup_t) (display_name normalized_path : string)
  : result (option string) :=
  let key2 := Key2 display_name normalized_path in
  if Dict.mem key_eq_dec lookup key2
  then s <- Dict.getitem key_eq_dec lookup key2 ;; Ok (Some s)
  else Ok None.

(** Partial path matching: the loop over [lookup.items()]. *)
Fixpoint partial_path_match (display_name normalized_path : string)
    (start_line : option Z) (items : list (key * string))
  : result (option string) :=
  match items with
  | [] => Ok None
  | (k, status) :: items' =>
      let name := key_name k in
      let lpath := key_path k in
      let rest := key_rest k in
      if String.eqb name display_name then
        if PyStr.contains lpath normalized_path
           || PyStr.contains normalized_path lpath then
          if negb (is_empty rest) && negb (is_none start_line) then
            lookup_start <- list_getitem rest 0 ;;
            if line_eqb lookup_start start_line then Ok (Some status)
            else partial_path_match display_name normalized_path start_line items'
          else if is_empty rest then Ok (Some status)
          else partial_path_match display_name normalized_path start_line items'
        else partial_path_match display_name normalized_path start_line items'
      else partial_path_match display_name normalized_path start_line items'
  end.

(** The three path-based tiers for one candidate path. *)
Definition match_path (lookup : lookup_t) (display_name : string)
    (start_line : option Z) (path : string) : result (option string) :=
  let normalized_path := normalize_path path in
  exact_triple lookup display_name normalized_path start_line
  otherwise exact_pair lookup display_name normalized_path
  otherwise partial_path_match display_name normalized_path start_line lookup.

(** The loop [for path in [relative_path, full_path]]. *)
Fixpoint try_paths (lookup : lookup_t) (display_name : string)
    (start_line : option Z) (paths : list string) : result (option string) :=
  match paths with
  | [] => Ok None
  | path :: paths' =>
      if String.eqb path "" then try_paths lookup display_name start_line paths'
      else
        match_path lookup display_name start_line path
        otherwise try_paths lookup display_name start_line paths'
  end.

(** Strategy 3: name-only matching. [set(...)] is the list of distinct
    statuses. *)
Definition name_only (by_name : by_name_t) (display_name : string)
  : result (option string) :=
  if Dict.mem string_dec by_name display_name then
    matches <- Dict.getitem string_dec by_name display_name ;;
    let statuses := nodup string_dec (map m_status matches) in
    if Nat.eqb (List.length statuses) 1 then
      m <- list_getitem matches 0 ;; Ok (Some (m_status m))
    else if Nat.eqb (List.length matches) 1 then
      m <- list_getitem matches 0 ;; Ok (Some (m_status m))
    else Ok None
  else Ok None.

Definition find_verification_status (node : GraphNode) (lookup : lookup_t)
    (by_name : by_name_t) : result (option string) :=
  let display_name := get_default (display_name node) "" in
  let full_path := get_default (full_path node) "" in
  let relative_path := get_default (relative_path node) "" in
  try_paths lookup display_name (start_line node) [relative_path; full_path]
  otherwise name_only by_name display_name.

(* ================================================================== *)
(** * Enrichment pass *)

Definition stats_t : Type := list (string * Z).

Definition initial_stats : stats_t :=
  [ ("verified", 0%Z); ("failed", 0%Z); ("unverified", 0%Z); ("unknown", 0%Z) ].

(** [stats[k] += 1] *)
Definition increment (stats : stats_t) (k : string) : result stats_t :=
  n <- Dict.getitem string_dec stats k ;;
  Ok (Dict.set string_dec stats k (n + 1)%Z).

(** Truth value of an [Optional[str]]. *)
Definition truthy (status : option string) : bool :=
  match status with
  | Some s => negb (String.eqb s "")
  | None => false
  end.

(** [node["verification_status"] = status] *)
Definition set_verification_status (node : GraphNode) (status : string)
  : GraphNode :=
  mkGraphNode (node_id node) (display_name node) (relative_path node)
    (full_path node) (start_line node) (Some (Some status)) (node_extra node).

(** Body of the loop [for node in nodes]. *)
Definition process_node (lookup : lookup_t) (by_name : by_name_t)
    (stats : stats_t) (node : GraphNode) : result (GraphNode * stats_t) :=
  status <- find_verification_status node lookup by_name ;;
  if truthy status then
    match status with
    | Some s =>
        stats' <- increment stats s ;;
        Ok (set_verification_status node s, stats')
    | None => Ok (node, stats)
    end
  else
    stats' <- increment stats "unknown" ;;
    Ok (node, stats').

Fixpoint process_nodes (lookup : lookup_t) (by_name : by_name_t)
    (stats : stats_t) (nodes : list GraphNode)
  : result (list GraphNode * stats_t) :=
  match nodes with
  | [] => Ok ([], stats)
  | node :: nodes' =>
      r <- process_node lookup by_name stats node ;;
      let '(node', stats') := r in
      r' <- process_nodes lookup by_name stats' nodes' ;;
      let '(done, stats'') := r' in
      Ok (node' :: done, stats'')
  end.

(** [process_graph] between loading the two documents and dumping the
    graph: returns the document that is written and the statistics. *)
Definition process_graph (graph_data : GraphData)
    (verification_data : VerificationData) : result (GraphData * stats_t) :=
  idx <- build_verification_lookup verification_data ;;
  let '(lookup, by_name) := idx in
  let node_list := get_default (nodes graph_data) [] in
  r <- process_nodes lookup by_name initial_stats node_list ;;
  let '(node_list', stats) := r in
  Ok (mkGraphData (option_map (fun _ => node_list') (nodes graph_data))
        (graph_extra graph_data),
      stats).

(* ================================================================== *)
(** * Vocabulary of the statements *)

(** The three outcome strings. *)
Definition outcomes : list string := ["verified"; "failed"; "unverified"].

(** What the builder reads from a record. *)
Definition record_name (func : FunctionRecord) : string :=
  get_default (func_display_name func) "".

Definition record_path (func : FunctionRecord) : string :=
  normalize_path (get_default (func_code_path func) "").

Definition record_line (func : FunctionRecord) : option Z :=
  lines_start (get_default (func_code_text func) (mkCodeText None None)).

Definition triple_key (func : FunctionRecord) : key :=
  Key3 (record_name func) (record_path func) (record_line func).

Definition pair_key (func : FunctionRecord) : key :=
  Key2 (record_name func) (record_path func).

(** The records of one category of the report. *)
Definition category (verification_data : VerificationData) (key : string)
  : list FunctionRecord :=
  get_default
    (Dict.get string_dec (get_default (verification verification_data) []) key)
    [].

(** The records in the order in which the builder processes them, each with
    the status of its category. *)
Definition records_in_order (verification_data : VerificationData)
  : list (string * FunctionRecord) :=
  flat_map (fun entry : string * string =>
              map (pair (snd entry)) (category verification_data (fst entry)))
           status_mapping.

Definition has_key (k : key) (of_record : FunctionRecord -> key)
    (sf : string * FunctionRecord) : bool :=
  if key_eq_dec (of_record (snd sf)) k then true else false.

(** The index after one record, without the error plumbing. *)
Definition lookup_step (lookup : lookup_t) (sf : string * FunctionRecord)
  : lookup_t :=
  let lookup1 := Dict.set key_eq_dec lookup (triple_key (snd sf)) (fst sf) in
  if Dict.mem key_eq_dec lookup1 (pair_key (snd sf)) then lookup1
  else Dict.set key_eq_dec lookup1 (pair_key (snd sf)) (fst sf).

Definition by_name_step (by_name : by_name_t) (sf : string * FunctionRecord)
  : by_name_t :=
  let func := snd sf in
  Dict.set string_dec by_name (record_name func)
    (get_default (Dict.get string_dec by_name (record_name func)) []
     ++ [mkMatch (record_path func) (fst sf) (record_line func)
           (lines_end (get_default (func_code_text func) (mkCodeText None None)))]).

Definition index_step (acc : lookup_t * by_name_t) (sf : string * FunctionRecord)
  : lookup_t * by_name_t :=
  (lookup_step (fst acc) sf, by_name_step (snd acc) sf).

(** The index the builder returns for a report. *)
Definition index_of_report (verification_data : VerificationData)
  : lookup_t * by_name_t :=
  fold_left index_step (records_in_order verification_data) ([], []).

(** A record and a node with every missing member filled in by its default. *)
Definition record_with_defaults (func : FunctionRecord) : FunctionRecord :=
  mkFunctionRecord
    (Some (get_default (func_display_name func) ""))
    (Some (get_default (func_code_path func) ""))
    (Some (get_default (func_code_text func) (mkCodeText None None))).

Definition node_with_defaults (node : GraphNode) : GraphNode :=
  mkGraphNode (node_id node)
    (Some (get_default (display_name node) ""))
    (Some (get_default (relative_path node) ""))
    (Some (get_default (full_path node) ""))
    (start_line node) (verification_status node) (node_extra node).

(** Two nodes agree on every member but [verification_status]. *)
Definition same_except_status (n n' : GraphNode) : Prop :=
  node_id n' = node_id n /\
  display_name n' = display_name n /\
  relative_path n' = relative_path n /\
  full_path n' = full_path n /\
  start_line n' = start_line n /\
  node_extra n' = node_extra n.

(** The records indexed under a name. *)
Definition records_named (by_name : by_name_t) (name : string) : list Match :=
  get_default (Dict.get string_dec by_name name) [].

(** Every status stored in an index satisfies [P]. *)
Definition values_in (P : string -> Prop) (lookup : lookup_t) : Prop :=
  forall k s, In (k, s) lookup -> P s.

Definition statuses_in (P : string -> Prop) (by_name : by_name_t) : Prop :=
  forall name l m, In (name, l) by_name -> In m l -> P (m_status m).

(** The statistics hold a counter for every outcome and for [unknown]. *)
Definition counters_present (stats : stats_t) : Prop :=
  forall k, In k ("unknown" :: outcomes) ->
            exists n, Dict.get string_dec stats k = Some n.

(** What the enrichment pass does to one node, given the index. *)
Definition enriched (lookup : lookup_t) (by_name : by_name_t)
    (n n' : GraphNode) : Prop :=
  (find_verification_status n lookup by_name = Ok None /\ n' = n)
  \/ (exists s, find_verification_status n lookup by_name = Ok (Some s)
                /\ In s outcomes
                /\ same_except_status n n'
                /\ verification_status n' = Some (Some s)).

(** Reports and nodes used as concrete inputs below. *)
Module Scenario.

Definition add_record : FunctionRecord :=
  mkFunctionRecord (Some "add") (Some "crate/src/lib.rs")
    (Some (mkCodeText (Some 10%Z) None)).

Definition add_report : VerificationData :=
  mkVerificationData (Some [("verified_functions", [add_record])]).

Definition add_node : GraphNode :=
  mkGraphNode None (Some "add") (Some "crate/crate/src/lib.rs") None
    (Some 10%Z) None [].

Definition add_graph : GraphData := mkGraphData (Some [add_node]) [].

(** Two records of one name in two files; the node's first candidate path
    names one file, its second candidate path and line the other. *)
Definition split_report : VerificationData :=
  mkVerificationData (Some
    [ ("verified_functions",
       [mkFunctionRecord (Some "f") (Some "src/b.rs")
          (Some (mkCodeText (Some 5%Z) None))]);
      ("failed_functions",
       [mkFunctionRecord (Some "f") (Some "src/a.rs")
          (Some (mkCodeText (Some 10%Z) None))]) ]).

Definition split_node : GraphNode :=
  mkGraphNode None (Some "f") (Some "src/b.rs") (Some "src/a.rs")
    (Some 10%Z) None [].

Definition foo_record (path : string) : FunctionRecord :=
  mkFunctionRecord (Some "foo") (Some path) (Some (mkCodeText (Some 1%Z) None)).

Definition foo_report : VerificationData :=
  mkVerificationData (Some
    [ ("verified_functions",
       [foo_record "src/a.rs"; foo_record "src/b.rs"; foo_record "src/c.rs"]) ]).

Definition foo_node : GraphNode :=
  mkGraphNode None (Some "foo") (Some "lib/other.rs") None (Some 7%Z) None [].

Definition bar_report : VerificationData :=
  mkVerificationData (Some
    [ ("verified_functions",
       [mkFunctionRecord (Some "bar") (Some "src/a.rs") None]);
      ("failed_functions",
       [mkFunctionRecord (Some "bar") (Some "src/b.rs") None]) ]).

Definition bar_node : GraphNode :=
  mkGraphNode None (Some "bar") (Some "lib/other.rs") None None None [].

(** The same pair key and the same triple key in two categories. *)
Definition clash_report : VerificationData :=
  mkVerificationData (Some
    [ ("unverified_functions",
       [mkFunctionRecord (Some "g") (Some "p/src/g.rs")
          (Some (mkCodeText (Some 3%Z) (Some 9%Z)))]);
      ("verified_functions",
       [mkFunctionRecord (Some "g") (Some "src/g.rs")
          (Some (mkCodeText (Some 3%Z) (Some 9%Z)))]) ]).

(** A record without [code-path]. *)
Definition pathless_report : VerificationData :=
  mkVerificationData (Some
    [ ("failed_functions", [mkFunctionRecord (Some "h") None None]) ]).

Definition pathless_node : GraphNode :=
  mkGraphNode None (Some "h") None (Some "any/where.rs") (Some 4%Z) None [].

End Scenario.

(* ================================================================== *)
(** * The index builder on untyped JSON values

    [json.load] returns any JSON value. Here the builder runs on the
    loaded value itself: a member may be missing, hold null, or hold a
    value of any type. Numbers are integers. *)

#[local] Set Warnings "-register-all".

Inductive json : Type :=
| JNull
| JBool (b : bool)
| JInt (z : Z)
| JStr (s : string)
| JArr (items : list json)
| JObj (members : list (string * json)).

(** [o.get(k, default)]: only a dict has the method. *)
Definition json_get (o : json) (k : string) (default : json) : result json :=
  match o with
  | JObj members => Ok (get_default (Dict.get string_dec members k) default)
  | _ => Raise AttributeError
  end.

(** [for x in v]: a list gives its items, a dict its keys, a string its
    characters; nothing else can be iterated. *)
Definition json_iter (v : json) : result (list json) :=
  match v with
  | JArr items => Ok items
  | JObj members => Ok (map (fun m => JStr (fst m)) members)
  | JStr s => Ok (map (fun c => JStr (String c "")) (list_ascii_of_string s))
  | _ => Raise TypeError
  end.

(** [normalize_path(path)]: [path.replace] exists on strings only. *)
Definition normalize_path_json (path : json) : result string :=
  match path with
  | JStr s => Ok (normalize_path s)
  | _ => Raise AttributeError
  end.

(** A value as a component of a dict key. [True] and [1] are the same key,
    [False] and [0] too; lists and dicts cannot be hashed. *)
Inductive scalar : Type :=
| SNone
| SInt (z : Z)
| SStr (s : string).

Definition hash_key (v : json) : result scalar :=
  match v with
  | JNull => Ok SNone
  | JBool b => Ok (SInt (if b then 1 else 0)%Z)
  | JInt z => Ok (SInt z)
  | JStr s => Ok (SStr s)
  | JArr _ => Raise TypeError
  | JObj _ => Raise TypeError
  end.

Definition scalar_eq_dec (x y : scalar) : {x = y} + {x <> y}.
Proof.
  decide equality; [apply Z.eq_dec | apply string_dec].
Defined.

(** Keys of [lookup] when name and line are arbitrary hashable values. *)
Inductive raw_key : Type :=
| RawKey3 (name : scalar) (path : string) (line : scalar)
| RawKey2 (name : scalar) (path : string).

Definition raw_key_eq_dec (x y : raw_key) : {x = y} + {x <> y}.
Proof.
  decide equality; try apply string_dec; apply scalar_eq_dec.
Defined.

(** An entry of a [by_name] list; the lines are stored as they are. *)
Record RawMatch : Type := mkRawMatch {
  rm_path : string;
  rm_status : string;
  rm_lines_start : json;
  rm_lines_end : json
}.

Definition raw_lookup_t : Type := list (raw_key * string).
Definition raw_by_name_t : Type := list (scalar * list RawMatch).

(** Body of the inner loop [for func in functions], on any value. *)
Definition add_function_json (status : string)
    (acc : raw_lookup_t * raw_by_name_t) (func : json)
  : result (raw_lookup_t * raw_by_name_t) :=
  let '(lookup, by_name) := acc in
  display_name <- json_get func "display-name" (JStr "") ;;
  code_path <- json_get func "code-path" (JStr "") ;;
  code_text <- json_get func "code-text" (JObj []) ;;
  lines_start <- json_get code_text "lines-start" JNull ;;
  code_text' <- json_get func "code-text" (JObj []) ;;
  lines_end <- json_get code_text' "lines-end" JNull ;;
  normalized_path <- normalize_path_json code_path ;;
  name <- hash_key display_name ;;
  line <- hash_key lines_start ;;
  let primary_key := RawKey3 name normalized_path line in
  let lookup := Dict.set raw_key_eq_dec lookup primary_key status in
  let secondary_key := RawKey2 name normalized_path in
  let lookup :=
    if negb (Dict.mem raw_key_eq_dec lookup secondary_key)
    then Dict.set raw_key_eq_dec lookup secondary_key status
    else lookup in
  let by_name :=
    if negb (Dict.mem scalar_eq_dec by_name name)
    then Dict.set scalar_eq_dec by_name name []
    else by_name in
  l <- Dict.getitem scalar_eq_dec by_name name ;;
  Ok (lookup,
      Dict.set scalar_eq_dec by_name name
        (l ++ [mkRawMatch normalized_path status lines_start lines_end])).

(** Body of the outer loop [for key, status in status_mapping.items()]. *)
Definition add_category_json (verification : json)
    (acc : raw_lookup_t * raw_by_name_t) (entry : string * string)
  : result (raw_lookup_t * raw_by_name_t) :=
  let '(key, status) := entry in
  functions <- json_get verification key (JArr []) ;;
  items <- json_iter functions ;;
  foldM (add_function_json status) acc items.

Definition build_verification_lookup_json (verification_data : json)
  : result (raw_lookup_t * raw_by_name_t) :=
  verification <- json_get verification_data "verification" (JObj []) ;;
  foldM (add_category_json verification) ([], []) status_mapping.

(** ** A typed report as the JSON document it stands for *)

(** A member that is written only when present. *)
Definition member (k : string) (v : option json) : list (string * json) :=
  match v with
  | Some j => [(k, j)]
  | None => []
  end.

Definition json_of_line (line : option Z) : json :=
  match line with
  | Some z => JInt z
  | None => JNull
  end.

Definition json_of_code_text (code_text : CodeText) : json :=
  JObj (member "lines-start" (option_map JInt (lines_start code_text))
        ++ member "lines-end" (option_map JInt (lines_end code_text))).

Definition json_of_function (func : FunctionRecord) : json :=
  JObj (member "display-name" (option_map JStr (func_display_name func))
        ++ member "code-path" (option_map JStr (func_code_path func))
        ++ member "code-text"
             (option_map json_of_code_text (func_code_text func))).

Definition json_of_category (entry : string * list FunctionRecord)
  : string * json :=
  (fst entry, JArr (map json_of_function (snd entry))).

Definition json_of_report (verification_data : VerificationData) : json :=
  JObj (member "verification"
          (option_map (fun v => JObj (map json_of_category v))
             (verification verification_data))).

(** ** A typed index as the index on JSON values it stands for *)

Definition scalar_of_line (line : option Z) : scalar :=
  match line with
  | Some z => SInt z
  | None => SNone
  end.

Definition raw_of_key (k : key) : raw_key :=
  match k with
  | Key3 name path line => RawKey3 (SStr name) path (scalar_of_line line)
  | Key2 name path => RawKey2 (SStr name) path
  end.

Definition raw_of_match (m : Match) : RawMatch :=
  mkRawMatch (m_path m) (m_status m) (json_of_line (m_lines_start m))
    (json_of_line (m_lines_end m)).

Definition raw_of_lookup (lookup : lookup_t) : raw_lookup_t :=
  map (fun kv => (raw_of_key (fst kv), snd kv)) lookup.

Definition raw_of_by_name (by_name : by_name_t) : raw_by_name_t :=
  map (fun kv => (SStr (fst kv), map raw_of_match (snd kv))) by_name.

(** ** Documents outside the schema *)

Module Malformed.

(** [{"verification": {"failed_functions": [func]}}] *)
Definition report_of (func : json) : json :=
  JObj [("verification", JObj [("failed_functions", JArr [func])])].

(** A record whose [code-text] holds null. *)
Definition null_code_text : json :=
  JObj [("display-name", JStr "f"); ("code-path", JStr "src/a.rs");
        ("code-text", JNull)].

(** A record whose [code-path] holds null. *)
Definition null_code_path : json :=
  JObj [("display-name", JStr "f"); ("code-path", JNull)].

(** The report of [bar_report] after the failed record has lost its
    [code-path]. *)
Definition bar_report_without_path : VerificationData :=
  mkVerificationData (Some
    [ ("verified_functions",
       [mkFunctionRecord (Some "bar") (Some "src/a.rs") None]);
      ("failed_functions",
       [mkFunctionRecord (Some "bar") None None]) ]).

End Malformed.

(* ================================================================== *)
(** * Vocabulary of the further properties *)

(** The [by_name] entry the builder appends for a record. *)
Definition match_of (sf : string * FunctionRecord) : Match :=
  mkMatch (record_path (snd sf)) (fst sf) (record_line (snd sf))
    (lines_end (get_default (func_code_text (snd sf)) (mkCodeText None None))).

(** The record bears the given name. *)
Definition named (name : string) (sf : string * FunctionRecord) : bool :=
  String.eqb (record_name (snd sf)) name.

(** The first candidate path the loop of the resolver does not skip. *)
Definition first_candidate (node : GraphNode) : option string :=
  let relative_path := get_default (relative_path node) "" in
  let full_path := get_default (full_path node) "" in
  if String.eqb relative_path "" then
    if String.eqb full_path "" then None else Some full_path
  else Some relative_path.

(** The test of the partial path matching: one path is part of the other. *)
Definition overlap (lpath normalized_path : string) : bool :=
  PyStr.contains lpath normalized_path || PyStr.contains normalized_path lpath.

Definition status_eqb (a b : option string) : bool :=
  match a, b with
  | Some x, Some y => String.eqb x y
  | None, None => true
  | _, _ => false
  end.

(** The resolver answers [r] for the node. *)
Definition resolves_to (lookup : lookup_t) (by_name : by_name_t)
    (r : option string) (node : GraphNode) : bool :=
  match find_verification_status node lookup by_name with
  | Ok r' => status_eqb r' r
  | Raise _ => false
  end.

Definition count_resolved (lookup : lookup_t) (by_name : by_name_t)
    (r : option string) (node_list : list GraphNode) : Z :=
  Z.of_nat (List.length (filter (resolves_to lookup by_name r) node_list)).

(** The value of a counter of the statistics. *)
Definition counter (stats : stats_t) (k : string) : Z :=
  get_default (Dict.get string_dec stats k) 0%Z.

(* ================================================================== *)
(** * Callers of curve25519-dalek functions

    Shallow embedding of [scripts/find_dalek_called_by_signal.py]:
    [make_github_link] and [get_dalek_functions_called_by_signal], between
    loading the graph and formatting the result. The subscripts
    [data['nodes']] and [n['id']] raise [KeyError] on a missing member. *)

From Stdlib Require Import DecimalString.

Module CalledBySignal.

(** A node of the graph, with the members this script reads. *)
Record Node : Type := mkNode {
  id : option string;
  display_name : option string;
  relative_path : option string;
  start_line : option Z;
  dependents : option (list string);
  is_libsignal : option bool
}.

Record Data : Type := mkData {
  nodes : option (list Node)
}.

(** An entry of [result_map]. *)
Record Info : Type := mkInfo {
  dalek_function : string;
  dalek_path : string;
  caller_id : string;
  caller_name : string;
  caller_path : string;
  caller_line : Z;
  github_link : string
}.

Definition LIBSIGNAL_GITHUB_BASE : string :=
  "https://github.com/signalapp/libsignal/blob/main".

(** An integer in an f-string: its decimal numeral. *)
Definition format_int (n : Z) : string :=
  NilZero.string_of_int (Z.to_int n).

Definition make_github_link (relative_path : string) (line : Z) : string :=
  (LIBSIGNAL_GITHUB_BASE ++ "/" ++ relative_path ++ "#L" ++ format_int line)%string.

(** [n['id']] *)
Definition getitem_id (n : Node) : result string :=
  match id n with
  | Some i => Ok i
  | None => Raise KeyError
  end.

(** [{n['id']: n for n in nodes}] *)
Definition index_by_id (node_list : list Node) : result (list (string * Node)) :=
  foldM (fun d n => i <- getitem_id n ;; Ok (Dict.set string_dec d i n))
        [] node_list.

(** The empty dict [{}] that stands for an unknown dependent. *)
Definition empty_node : Node := mkNode None None None None None None.

(** The loop [for dep_id in dependents], left by [break] at the first
    dependent outside curve25519-dalek that is a libsignal node. *)
Fixpoint scan_dependents (node_by_id : list (string * Node)) (node_id : string)
    (node : Node) (result_map : list (string * Info)) (deps : list string)
  : list (string * Info) :=
  match deps with
  | [] => result_map
  | dep_id :: deps' =>
      if negb (PyStr.contains "curve25519-dalek" dep_id) then
        let dep_node :=
          get_default (Dict.get string_dec node_by_id dep_id) empty_node in
        if get_default (is_libsignal dep_node) false then
          let caller_path := get_default (relative_path dep_node) "" in
          let caller_line := get_default (start_line dep_node) 0%Z in
          let caller_name := get_default (display_name dep_node) "" in
          Dict.set string_dec result_map node_id
            (mkInfo (get_default (display_name node) "")
                    (get_default (relative_path node) "")
                    dep_id caller_name caller_path caller_line
                    (make_github_link caller_path caller_line))
        else scan_dependents node_by_id node_id node result_map deps'
      else scan_dependents node_by_id node_id node result_map deps'
  end.

(** Body of the loop [for node in nodes]. *)
Definition visit (node_by_id : list (string * Node))
    (result_map : list (string * Info)) (node : Node)
  : result (list (string * Info)) :=
  node_id <- getitem_id node ;;
  if negb (PyStr.contains "curve25519-dalek" node_id) then Ok result_map
  else Ok (scan_dependents node_by_id node_id node result_map
             (get_default (dependents node) [])).

Definition get_dalek_functions_called_by_signal (data : Data)
  : result (list (string * Info)) :=
  node_list <- match nodes data with
               | Some l => Ok l
               | None => Raise KeyError
               end ;;
  node_by_id <- index_by_id node_list ;;
  foldM (visit node_by_id) [] node_list.

(** The dependent is outside curve25519-dalek and indexed as a libsignal
    node. *)
Definition qualifies (node_by_id : list (string * Node)) (dep_id : string)
  : bool :=
  negb (PyStr.contains "curve25519-dalek" dep_id)
  && get_default
       (is_libsignal
          (get_default (Dict.get string_dec node_by_id dep_id) empty_node))
       false.

Definition has_id (n : Node) : bool :=
  match id n with Some _ => true | None => false end.

(** The dict literal stored for a node and its caller. *)
Definition call_info (node_by_id : list (string * Node)) (node : Node)
    (dep_id : string) : Info :=
  let dep_node := get_default (Dict.get string_dec node_by_id dep_id) empty_node in
  mkInfo (get_default (display_name node) "")
         (get_default (relative_path node) "")
         dep_id
         (get_default (display_name dep_node) "")
         (get_default (relative_path dep_node) "")
         (get_default (start_line dep_node) 0%Z)
         (make_github_link (get_default (relative_path dep_node) "")
            (get_default (start_line dep_node) 0%Z)).

(** What an entry under [node_id] records about a node and its caller: the
    caller is the first qualifying dependent of a node of that id. *)
Definition records_call (node_by_id : list (string * Node))
    (node_list : list Node) (node_id : string) (info : Info) : Prop :=
  PyStr.contains "curve25519-dalek" node_id = true
  /\ PyStr.contains "curve25519-dalek" (caller_id info) = false
  /\ (exists node,
        In node node_list /\ id node = Some node_id
        /\ List.find (qualifies node_by_id) (get_default (dependents node) [])
           = Some (caller_id info)
        /\ dalek_function info = get_default (display_name node) ""
        /\ dalek_path info = get_default (relative_path node) "")
  /\ (exists dep_node,
        Dict.get string_dec node_by_id (caller_id info) = Some dep_node
        /\ is_libsignal dep_node = Some true
        /\ caller_name info = get_default (display_name dep_node) ""
        /\ caller_path info = get_default (relative_path dep_node) ""
        /\ caller_line info = get_default (start_line dep_node) 0%Z)
  /\ github_link info = make_github_link (caller_path info) (caller_line info).

(** A small graph: one dalek function called from libsignal and from
    dalek itself, one dalek function without caller. *)
Definition sample : Data :=
  mkData (Some
    [ mkNode (Some "curve25519-dalek/scalar/mul") (Some "mul")
        (Some "curve25519-dalek/src/scalar.rs") (Some 12%Z)
        (Some ["curve25519-dalek/edwards/mul_base"; "libsignal/zkgroup/sign"])
        None;
      mkNode (Some "curve25519-dalek/edwards/mul_base") (Some "mul_base")
        (Some "curve25519-dalek/src/edwards.rs") (Some 40%Z) None None;
      mkNode (Some "libsignal/zkgroup/sign") (Some "sign")
        (Some "rust/zkgroup/src/sign.rs") (Some 77%Z) (Some [])
        (Some true) ]).

End CalledBySignal.

(* ================================================================== *)
(** * Worked examples *)

Example normalize_dalek :
  normalize_path "curve25519-dalek/curve25519-dalek/src/lemmas/x.rs" = "src/lemmas/x.rs".
Proof. reflexivity. Qed.

Example normalize_scheme :
  normalize_path "file:///home/u/proj/src/a.rs" = "src/a.rs".
Proof. reflexivity. Qed.

Example normalize_trailing_src :
  normalize_path "a/b/src" = "src".
Proof. reflexivity. Qed.

Example replace_all_occurrences :
  PyStr.replace "ab" "-" "xababyab" = "x--y-".
Proof. reflexivity. Qed.

(* ================================================================== *)
(** * Facts about the string methods *)

Module PyStrFacts.
Import PyStr.

Lemma startswith_empty (s : string) : startswith "" s = true.
Proof. destruct s; reflexivity. Qed.

Lemma contains_empty (s : string) : contains "" s = true.
Proof. unfold contains. destruct s; reflexivity. Qed.

Lemma startswith_app (p s : string) :
  startswith p s = true -> exists t, s = (p ++ t)%string.
Proof.
  revert s. induction p as [|a p IH]; intros s H.
  - exists s. reflexivity.
  - destruct s as [|b s]; simpl in H; [discriminate|].
    destruct (Ascii.eqb a b) eqn:E; [|discriminate].
    apply Ascii.eqb_eq in E. subst b.
    destruct (IH s H) as [t ->]. exists t. reflexivity.
Qed.

Lemma index_of_cons_none (sub : string) (c : ascii) (s : string) :
  index_of sub (String c s) = None ->
  startswith sub (String c s) = false /\ index_of sub s = None.
Proof.
  cbn [index_of]. destruct (startswith sub (String c s)); [discriminate|].
  destruct (index_of sub s); [discriminate|]. auto.
Qed.

Lemma drop_succ (n : nat) (s : string) : drop (S n) s = drop 1 (drop n s).
Proof.
  revert s. induction n as [|n IH]; intros s.
  - reflexivity.
  - destruct s as [|c s]; [reflexivity|].
    change (drop (S (S n)) (String c s)) with (drop (S n) s).
    change (drop (S n) (String c s)) with (drop n s).
    apply IH.
Qed.

Lemma index_of_drop (sub s : string) (i : nat) :
  index_of sub s = Some i -> startswith sub (drop i s) = true.
Proof.
  revert i. induction s as [|c s IH]; intros i H.
  - cbn [index_of] in H. destruct (startswith sub "") eqn:E; [|discriminate].
    injection H as <-. exact E.
  - cbn [index_of] in H.
    destruct (startswith sub (String c s)) eqn:E.
    + injection H as <-. exact E.
    + destruct (index_of sub s) as [j|] eqn:Ej; [|discriminate].
      injection H as <-. cbn [drop]. apply IH. reflexivity.
Qed.

(** Without an occurrence of [old] the replacement scan copies its input. *)
Lemma replace_scan_absent (old new s : string) :
  index_of old s = None -> replace_scan old new 0 s = s.
Proof.
  induction s as [|c s IH]; intros H; [reflexivity|].
  apply index_of_cons_none in H. destruct H as [Hp Hi].
  cbn [replace_scan]. rewrite Hp, (IH Hi). reflexivity.
Qed.

Lemma replace_absent (old new s : string) :
  old <> "" -> contains old s = false -> replace old new s = s.
Proof.
  intros Hne H. unfold contains in H.
  destruct (index_of old s) eqn:E; [discriminate|].
  destruct old; [contradiction|]. apply replace_scan_absent. exact E.
Qed.

Lemma split_not_nil (sep : ascii) (s : string) : split sep s <> [].
Proof.
  destruct s as [|c s]; cbn [split]; [discriminate|].
  destruct (Ascii.eqb c sep); [discriminate|].
  destruct (split sep s); discriminate.
Qed.

(** Joining the parts of a split gives the string back. *)
Lemma join_split (sep : ascii) (s : string) :
  join (String sep "") (split sep s) = s.
Proof.
  induction s as [|c s IH]; [reflexivity|].
  cbn [split]. destruct (Ascii.eqb c sep) eqn:E.
  - apply Ascii.eqb_eq in E. subst c.
    destruct (split sep s) as [|p ps] eqn:Es.
    + exfalso. exact (split_not_nil sep s Es).
    + change (join (String sep "") ("" :: p :: ps))
        with (String sep (join (String sep "") (p :: ps))).
      rewrite IH. reflexivity.
  - destruct (split sep s) as [|p ps] eqn:Es.
    + exfalso. exact (split_not_nil sep s Es).
    + destruct ps as [|p' ps].
      * cbn [join] in IH |- *. rewrite IH. reflexivity.
      * change (join (String sep "") (String c p :: p' :: ps))
          with (String c (join (String sep "") (p :: p' :: ps))).
        rewrite IH. reflexivity.
Qed.

Lemma length_drop (n : nat) (s : string) :
  String.length (drop n s) = String.length s - n.
Proof.
  revert s. induction n as [|n IH]; intros s.
  - cbn. lia.
  - destruct s as [|c s]; [reflexivity|]. cbn [drop String.length]. rewrite IH. lia.
Qed.

(** Deleting occurrences never lengthens the string, and shortens it when
    there is an occurrence. *)
Lemma replace_scan_length (old : string) (skip : nat) (s : string) :
  String.length (replace_scan old "" skip s) <= String.length s.
Proof.
  revert skip. induction s as [|c s IH]; intros skip; [reflexivity|].
  cbn [replace_scan]. destruct skip as [|k].
  - destruct (startswith old (String c s)); cbn [String.length append].
    + specialize (IH (String.length old - 1)). lia.
    + specialize (IH 0). lia.
  - specialize (IH k). cbn [String.length]. lia.
Qed.

Lemma replace_scan_shrinks (old s : string) (i : nat) :
  old <> "" -> index_of old s = Some i ->
  String.length (replace_scan old "" 0 s) < String.length s.
Proof.
  intros Hold. revert i. induction s as [|c s IH]; intros i Hi.
  - cbn [index_of] in Hi. destruct old; [contradiction | discriminate].
  - cbn [index_of] in Hi. cbn [replace_scan].
    destruct (startswith old (String c s)).
    + pose proof (replace_scan_length old (String.length old - 1) s).
      cbn [String.length append]. lia.
    + destruct (index_of old s) as [j|] eqn:Ej; [|discriminate].
      specialize (IH j eq_refl). cbn [String.length]. lia.
Qed.

Lemma length_append (s t : string) :
  String.length (s ++ t) = String.length s + String.length t.
Proof.
  induction s as [|c s IH]; [reflexivity|]. cbn. rewrite IH. reflexivity.
Qed.

Lemma length_join_cons (sep p : string) (ps : list string) :
  String.length (join sep ps) <= String.length (join sep (p :: ps)).
Proof.
  destruct ps as [|q ps]; [cbn; lia|].
  change (join sep (p :: q :: ps)) with (p ++ sep ++ join sep (q :: ps))%string.
  rewrite !length_append. lia.
Qed.

End PyStrFacts.

(* ================================================================== *)
(** * The path normalizer *)

Section Normalizer.
Import PyStr PyStrFacts.

(** The result of the segment loop starts at a [src] segment. *)
Lemma join_from_src_anchored (parts : list string) (r : string) :
  join_from_src parts = Some r -> r = "src" \/ exists t, r = ("src/" ++ t)%string.
Proof.
  induction parts as [|part parts IH]; intros H; [discriminate|].
  cbn [join_from_src] in H.
  destruct (String.eqb part "src") eqn:E.
  - apply String.eqb_eq in E. subst part. injection H as <-.
    destruct parts as [|p ps]; [left; reflexivity|].
    right. exists (join "/" (p :: ps)). reflexivity.
  - apply IH. exact H.
Qed.

(** A path that starts at a [src] segment is found by the segment loop. *)
Lemma join_from_src_of_anchored (r : string) :
  r = "src" \/ (exists t, r = ("src/" ++ t)%string) ->
  join_from_src (split "/" r) = Some r.
Proof.
  intros [->|[t ->]]; [reflexivity|].
  assert (Hs : split "/" ("src/" ++ t)%string = "src" :: split "/" t).
  { cbn. destruct (split "/" t) eqn:Es; reflexivity. }
  rewrite Hs. cbn [join_from_src]. cbn [String.eqb Ascii.eqb Bool.eqb].
  f_equal. destruct (split "/" t) as [|p ps] eqn:Es.
  - exfalso. exact (split_not_nil _ _ Es).
  - change (join "/" ("src" :: p :: ps)) with ("src/" ++ join "/" (p :: ps))%string.
    rewrite <- Es, (join_split "/" t). reflexivity.
Qed.

(** A path without scheme and without [/src/] on which the segment loop
    returns the path itself, or nothing, is a fixed point. *)
Lemma normalize_path_fixed (r : string) :
  contains "file://" r = false ->
  contains "/src/" r = false ->
  join_from_src (split "/" r) = Some r \/ join_from_src (split "/" r) = None ->
  normalize_path r = r.
Proof.
  intros Hf Hs Hj. unfold normalize_path.
  rewrite (replace_absent "file://" "" r) by (discriminate || assumption).
  rewrite Hs. destruct Hj as [-> | ->]; reflexivity.
Qed.

(** With a [/src/] segment the result is the text after the slash that
    opens the first one. *)
Lemma slice_after_src (q : string) :
  contains "/src/" q = true ->
  exists t, slice_from (find "/src/" q + 1) q = ("src/" ++ t)%string.
Proof.
  unfold contains, find. intros H.
  destruct (index_of "/src/" q) as [i|] eqn:E; [|discriminate].
  unfold slice_from.
  replace (0 <=? Z.of_nat i + 1)%Z with true by (symmetry; apply Z.leb_le; lia).
  replace (Z.to_nat (Z.of_nat i + 1)) with (S i) by lia.
  rewrite drop_succ.
  destruct (startswith_app _ _ (index_of_drop _ _ _ E)) as [t ->].
  exists t. reflexivity.
Qed.

(** On its own result the segment loop finds the result or nothing. *)
Lemma normalize_path_shape (p : string) :
  join_from_src (split "/" (normalize_path p)) = Some (normalize_path p)
  \/ join_from_src (split "/" (normalize_path p)) = None.
Proof.
  unfold normalize_path. set (q := replace "file://" "" p).
  destruct (contains "/src/" q) eqn:Eq.
  - left. apply join_from_src_of_anchored. right. exact (slice_after_src q Eq).
  - destruct (join_from_src (split "/" q)) as [r|] eqn:Ej.
    + left. apply join_from_src_of_anchored.
      exact (join_from_src_anchored _ _ Ej).
    + right. exact Ej.
Qed.

(** The segment loop returns a suffix of the joined parts. *)
Lemma join_from_src_length (parts : list string) (r : string) :
  join_from_src parts = Some r ->
  String.length r <= String.length (join "/" parts).
Proof.
  induction parts as [|part parts IH]; intros H; [discriminate|].
  cbn [join_from_src] in H. destruct (String.eqb part "src").
  - injection H as <-. reflexivity.
  - pose proof (length_join_cons "/" part parts). specialize (IH H). lia.
Qed.

Lemma normalize_path_length (p : string) :
  String.length (normalize_path p) <= String.length (replace "file://" "" p).
Proof.
  unfold normalize_path. set (q := replace "file://" "" p).
  destruct (contains "/src/" q) eqn:Eq.
  - unfold contains in Eq. unfold find, slice_from.
    destruct (index_of "/src/" q) as [i|]; [|discriminate].
    replace (0 <=? Z.of_nat i + 1)%Z with true by (symmetry; apply Z.leb_le; lia).
    rewrite length_drop. lia.
  - destruct (join_from_src (split "/" q)) as [r|] eqn:Ej; [|reflexivity].
    apply join_from_src_length in Ej. rewrite (join_split "/" q) in Ej. exact Ej.
Qed.

(** Only a path without scheme and without [/src/] segment is a fixed
    point of the normalizer. *)
Lemma normalize_path_fixed_only_if_clean (r : string) :
  normalize_path r = r ->
  contains "file://" r = false /\ contains "/src/" r = false.
Proof.
  intros Hfix.
  assert (Hf : contains "file://" r = false).
  { destruct (contains "file://" r) eqn:E; [|reflexivity]. exfalso.
    unfold contains in E.
    destruct (index_of "file://" r) as [i|] eqn:Ei; [|discriminate].
    assert (Hne : "file://" <> "") by discriminate.
    pose proof (replace_scan_shrinks "file://" r i Hne Ei) as Hlt.
    pose proof (normalize_path_length r) as Hle.
    rewrite Hfix in Hle. unfold replace in Hle. lia. }
  split; [exact Hf|].
  destruct (contains "/src/" r) eqn:E; [|reflexivity]. exfalso.
  assert (Hlen : String.length (normalize_path r) < String.length r);
    [|rewrite Hfix in Hlen; lia].
  unfold normalize_path.
  rewrite (replace_absent "file://" "" r) by (discriminate || assumption).
  rewrite E. unfold contains in E. unfold find, slice_from.
  destruct (index_of "/src/" r) as [i|] eqn:Ei; [|discriminate].
  replace (0 <=? Z.of_nat i + 1)%Z with true by (symmetry; apply Z.leb_le; lia).
  replace (Z.to_nat (Z.of_nat i + 1)) with (S i) by lia.
  rewrite length_drop.
  destruct r as [|c r]; [discriminate|]. cbn [String.length]. lia.
Qed.

End Normalizer.

(* ================================================================== *)
(** * Facts about dictionaries *)

Module DictFacts.
Section Facts.
Context {K V : Type} (eq_dec : forall x y : K, {x = y} + {x <> y}).
Implicit Types (d : list (K * V)) (k : K) (v : V).

Lemma mem_get d k : Dict.mem eq_dec d k = true <-> exists v, Dict.get eq_dec d k = Some v.
Proof.
  unfold Dict.mem. destruct (Dict.get eq_dec d k) as [v|].
  - split; [intros _; exists v; reflexivity | reflexivity].
  - split; [discriminate | intros [v H]; discriminate].
Qed.

Lemma mem_false d k : Dict.mem eq_dec d k = false <-> Dict.get eq_dec d k = None.
Proof.
  unfold Dict.mem. destruct (Dict.get eq_dec d k); split; congruence.
Qed.

Lemma get_set_same d k v : Dict.get eq_dec (Dict.set eq_dec d k v) k = Some v.
Proof.
  induction d as [|[k' v'] d IH]; cbn.
  - destruct (eq_dec k k); [reflexivity | contradiction].
  - destruct (eq_dec k k') as [E|E]; cbn.
    + destruct (eq_dec k k'); [reflexivity | contradiction].
    + destruct (eq_dec k k'); [contradiction | exact IH].
Qed.

Lemma get_set_other d k k' v :
  k <> k' -> Dict.get eq_dec (Dict.set eq_dec d k v) k' = Dict.get eq_dec d k'.
Proof.
  intros Hne. induction d as [|[k0 v0] d IH]; cbn.
  - destruct (eq_dec k' k); [congruence | reflexivity].
  - destruct (eq_dec k k0) as [E|E]; cbn.
    + subst k0. destruct (eq_dec k' k); [congruence | reflexivity].
    + destruct (eq_dec k' k0); [reflexivity | exact IH].
Qed.

Lemma get_In d k v : Dict.get eq_dec d k = Some v -> In (k, v) d.
Proof.
  induction d as [|[k' v'] d IH]; cbn; [discriminate|].
  destruct (eq_dec k k') as [E|E].
  - intros H. injection H as <-. subst k'. left. reflexivity.
  - intros H. right. exact (IH H).
Qed.

Lemma In_get d k v : In (k, v) d -> exists v', Dict.get eq_dec d k = Some v'.
Proof.
  induction d as [|[k' v'] d IH]; cbn; [contradiction|].
  intros [H|H]; destruct (eq_dec k k') as [E|E]; eauto.
  injection H as -> ->. contradiction.
Qed.

(** An assignment adds no value but the assigned one. *)
Lemma In_set d k v k' v' :
  In (k', v') (Dict.set eq_dec d k v) -> v' = v \/ In (k', v') d.
Proof.
  induction d as [|[k0 v0] d IH]; cbn.
  - intros [H|[]]. injection H as _ <-. left. reflexivity.
  - destruct (eq_dec k k0) as [E|E]; cbn.
    + intros [H|H]; [injection H as _ <-; left; reflexivity | right; right; exact H].
    + intros [H|H]; [right; left; exact H|].
      destruct (IH H) as [?|?]; [left | right; right]; assumption.
Qed.

Lemma getitem_get d k v : Dict.get eq_dec d k = Some v -> Dict.getitem eq_dec d k = Ok v.
Proof. unfold Dict.getitem. intros ->. reflexivity. Qed.

Lemma set_set d k v v' :
  Dict.set eq_dec (Dict.set eq_dec d k v) k v' = Dict.set eq_dec d k v'.
Proof.
  induction d as [|[k0 v0] d IH]; cbn.
  - destruct (eq_dec k k); [reflexivity | contradiction].
  - destruct (eq_dec k k0) as [E|E]; cbn.
    + destruct (eq_dec k k0); [reflexivity | contradiction].
    + destruct (eq_dec k k0); [contradiction | rewrite IH; reflexivity].
Qed.
End Facts.
End DictFacts.

Lemma find_app {A : Type} (f : A -> bool) (l1 l2 : list A) :
  List.find f (l1 ++ l2) =
  match List.find f l1 with Some x => Some x | None => List.find f l2 end.
Proof.
  induction l1 as [|a l1 IH]; cbn; [reflexivity|].
  destruct (f a); [reflexivity | exact IH].
Qed.

Lemma foldM_app {A B : Type} (f : A -> B -> result A) (a : A) (l1 l2 : list B) :
  foldM f a (l1 ++ l2) = (a' <- foldM f a l1 ;; foldM f a' l2).
Proof.
  revert a. induction l1 as [|b l1 IH]; intros a; cbn; [reflexivity|].
  destruct (f a b); cbn; [apply IH | reflexivity].
Qed.

(* ================================================================== *)
(** * The index builder *)

Section Builder.
Import DictFacts.

(** One record never raises: the subscript [by_name[display_name]] is
    guarded by the assignment before it. *)
Lemma add_function_ok (status : string) (acc : lookup_t * by_name_t)
    (func : FunctionRecord) :
  add_function status acc func = Ok (index_step acc (status, func)).
Proof.
  destruct acc as [lookup by_name].
  unfold add_function, index_step, lookup_step, by_name_step.
  cbn [fst snd]. fold (record_name func).
  change (normalize_path (get_default (func_code_path func) ""))
    with (record_path func).
  change (lines_start (get_default (func_code_text func) (mkCodeText None None)))
    with (record_line func).
  fold (triple_key func). fold (pair_key func).
  set (lookup1 := Dict.set key_eq_dec lookup (triple_key func) status).
  assert (Hl : (if negb (Dict.mem key_eq_dec lookup1 (pair_key func))
                then Dict.set key_eq_dec lookup1 (pair_key func) status
                else lookup1)
               = (if Dict.mem key_eq_dec lookup1 (pair_key func) then lookup1
                  else Dict.set key_eq_dec lookup1 (pair_key func) status)).
  { destruct (Dict.mem key_eq_dec lookup1 (pair_key func)); reflexivity. }
  rewrite Hl. clear Hl.
  destruct (Dict.mem string_dec by_name (record_name func)) eqn:Em; cbn [negb].
  - apply mem_get in Em. destruct Em as [l Hl].
    rewrite (getitem_get _ _ _ _ Hl). cbn [bind]. rewrite Hl. reflexivity.
  - rewrite (getitem_get _ _ _ _ (get_set_same _ _ _ _)). cbn [bind].
    apply mem_false in Em. rewrite Em. cbn [get_default app].
    rewrite set_set. reflexivity.
Qed.

Lemma foldM_add_function (status : string) (functions : list FunctionRecord)
    (acc : lookup_t * by_name_t) :
  foldM (add_function status) acc functions
  = Ok (fold_left index_step (map (pair status) functions) acc).
Proof.
  revert acc. induction functions as [|func functions IH]; intros acc.
  - reflexivity.
  - cbn [foldM map fold_left]. rewrite add_function_ok. cbn [bind]. apply IH.
Qed.

(** The builder never raises, and its result is the fold of [index_step]
    over the records in processing order. *)
Lemma build_verification_lookup_ok (verification_data : VerificationData) :
  build_verification_lookup verification_data
  = Ok (fold_left index_step (records_in_order verification_data) ([], [])).
Proof.
  unfold build_verification_lookup, records_in_order.
  generalize (@nil (key * string), @nil (string * list Match)).
  induction status_mapping as [|[key status] mapping IH]; intros acc.
  - reflexivity.
  - cbn [foldM flat_map fst snd]. unfold add_category at 1.
    fold (category verification_data key).
    rewrite foldM_add_function. cbn [bind].
    rewrite fold_left_app. apply IH.
Qed.

Lemma fold_index_step_fst (records : list (string * FunctionRecord))
    (acc : lookup_t * by_name_t) :
  fst (fold_left index_step records acc) = fold_left lookup_step records (fst acc).
Proof.
  revert acc. induction records as [|sf records IH]; intros acc; [reflexivity|].
  cbn [fold_left]. rewrite IH. reflexivity.
Qed.

Lemma fold_index_step_snd (records : list (string * FunctionRecord))
    (acc : lookup_t * by_name_t) :
  snd (fold_left index_step records acc) = fold_left by_name_step records (snd acc).
Proof.
  revert acc. induction records as [|sf records IH]; intros acc; [reflexivity|].
  cbn [fold_left]. rewrite IH. reflexivity.
Qed.

(** Effect of one record on a pair key and on a triple key. *)
Lemma lookup_step_pair (lookup : lookup_t) (sf : string * FunctionRecord)
    (name path : string) :
  Dict.get key_eq_dec (lookup_step lookup sf) (Key2 name path)
  = match Dict.get key_eq_dec lookup (Key2 name path) with
    | Some s => Some s
    | None => if has_key (Key2 name path) pair_key sf then Some (fst sf) else None
    end.
Proof.
  unfold lookup_step, has_key.
  set (lookup1 := Dict.set key_eq_dec lookup (triple_key (snd sf)) (fst sf)).
  assert (H1 : forall n p, Dict.get key_eq_dec lookup1 (Key2 n p)
                           = Dict.get key_eq_dec lookup (Key2 n p)).
  { intros n p. apply get_set_other. discriminate. }
  destruct (key_eq_dec (pair_key (snd sf)) (Key2 name path)) as [E|E].
  - rewrite <- E. unfold Dict.mem.
    destruct (Dict.get key_eq_dec lookup1 (pair_key (snd sf))) as [s|] eqn:Eg.
    + rewrite Eg. unfold pair_key in Eg |- *. rewrite H1 in Eg. rewrite Eg.
      reflexivity.
    + rewrite get_set_same. unfold pair_key in Eg |- *. rewrite H1 in Eg.
      rewrite Eg. reflexivity.
  - destruct (Dict.mem key_eq_dec lookup1 (pair_key (snd sf))).
    + rewrite H1. destruct (Dict.get key_eq_dec lookup (Key2 name path)); reflexivity.
    + rewrite get_set_other by exact E. rewrite H1.
      destruct (Dict.get key_eq_dec lookup (Key2 name path)); reflexivity.
Qed.

Lemma lookup_step_triple (lookup : lookup_t) (sf : string * FunctionRecord)
    (name path : string) (line : option Z) :
  Dict.get key_eq_dec (lookup_step lookup sf) (Key3 name path line)
  = if has_key (Key3 name path line) triple_key sf then Some (fst sf)
    else Dict.get key_eq_dec lookup (Key3 name path line).
Proof.
  unfold lookup_step, has_key.
  set (lookup1 := Dict.set key_eq_dec lookup (triple_key (snd sf)) (fst sf)).
  assert (H1 : Dict.get key_eq_dec lookup1 (Key3 name path line)
               = if key_eq_dec (triple_key (snd sf)) (Key3 name path line)
                 then Some (fst sf)
                 else Dict.get key_eq_dec lookup (Key3 name path line)).
  { subst lookup1.
    destruct (key_eq_dec (triple_key (snd sf)) (Key3 name path line)) as [E|E].
    - rewrite <- E. apply get_set_same.
    - apply get_set_other. exact E. }
  destruct (Dict.mem key_eq_dec lookup1 (pair_key (snd sf)));
    [|rewrite get_set_other by discriminate];
    rewrite H1;
    destruct (key_eq_dec (triple_key (snd sf)) (Key3 name path line)); reflexivity.
Qed.

(** First writer wins on pair keys. *)
Lemma fold_lookup_pair (records : list (string * FunctionRecord))
    (lookup : lookup_t) (name path : string) :
  Dict.get key_eq_dec (fold_left lookup_step records lookup) (Key2 name path)
  = match Dict.get key_eq_dec lookup (Key2 name path) with
    | Some s => Some s
    | None => option_map fst (List.find (has_key (Key2 name path) pair_key) records)
    end.
Proof.
  revert lookup. induction records as [|sf records IH]; intros lookup.
  - cbn. destruct (Dict.get key_eq_dec lookup (Key2 name path)); reflexivity.
  - cbn [fold_left List.find]. rewrite IH, lookup_step_pair.
    destruct (Dict.get key_eq_dec lookup (Key2 name path)); [reflexivity|].
    destruct (has_key (Key2 name path) pair_key sf); reflexivity.
Qed.

(** Last writer wins on triple keys. *)
Lemma fold_lookup_triple (records : list (string * FunctionRecord))
    (lookup : lookup_t) (name path : string) (line : option Z) :
  Dict.get key_eq_dec (fold_left lookup_step records lookup) (Key3 name path line)
  = match List.find (has_key (Key3 name path line) triple_key) (rev records) with
    | Some sf => Some (fst sf)
    | None => Dict.get key_eq_dec lookup (Key3 name path line)
    end.
Proof.
  revert lookup. induction records as [|sf records IH]; intros lookup.
  - reflexivity.
  - cbn [fold_left rev]. rewrite IH, find_app.
    destruct (List.find (has_key (Key3 name path line) triple_key) (rev records));
      [reflexivity|].
    rewrite lookup_step_triple. cbn [List.find].
    destruct (has_key (Key3 name path line) triple_key sf); reflexivity.
Qed.

End Builder.

(* ================================================================== *)
(** * Every stored status is one of the three outcomes *)

Section Outcomes.
Import DictFacts.

Lemma records_in_order_outcome (verification_data : VerificationData)
    (status : string) (func : FunctionRecord) :
  In (status, func) (records_in_order verification_data) -> In status outcomes.
Proof.
  unfold records_in_order, status_mapping, outcomes. cbn [flat_map fst snd].
  rewrite !in_app_iff, !in_map_iff.
  intros [[x [E _]]|[[x [E _]]|[[x [E _]]|[]]]]; injection E as <- _; cbn; auto.
Qed.

Lemma lookup_step_values (P : string -> Prop) (lookup : lookup_t)
    (sf : string * FunctionRecord) :
  values_in P lookup -> P (fst sf) -> values_in P (lookup_step lookup sf).
Proof.
  intros Hl Hs k s. unfold lookup_step.
  destruct (Dict.mem key_eq_dec _ (pair_key (snd sf))); intros H.
  - apply In_set in H. destruct H as [->|H]; [exact Hs | exact (Hl _ _ H)].
  - apply In_set in H. destruct H as [->|H]; [exact Hs|].
    apply In_set in H. destruct H as [->|H]; [exact Hs | exact (Hl _ _ H)].
Qed.

Lemma by_name_step_statuses (P : string -> Prop) (by_name : by_name_t)
    (sf : string * FunctionRecord) :
  statuses_in P by_name -> P (fst sf) -> statuses_in P (by_name_step by_name sf).
Proof.
  intros Hb Hs name l m Hin Hm. unfold by_name_step in Hin.
  apply In_set in Hin. destruct Hin as [->|Hin]; [|exact (Hb _ _ _ Hin Hm)].
  apply in_app_iff in Hm. destruct Hm as [Hm|[<-|[]]]; [|exact Hs].
  destruct (Dict.get string_dec by_name (record_name (snd sf))) as [old|] eqn:E;
    cbn [get_default] in Hm; [|contradiction].
  exact (Hb _ _ _ (get_In _ _ _ _ E) Hm).
Qed.

Lemma fold_index_step_outcomes (P : string -> Prop)
    (records : list (string * FunctionRecord)) (acc : lookup_t * by_name_t) :
  values_in P (fst acc) -> statuses_in P (snd acc) ->
  (forall sf, In sf records -> P (fst sf)) ->
  values_in P (fst (fold_left index_step records acc))
  /\ statuses_in P (snd (fold_left index_step records acc)).
Proof.
  revert acc. induction records as [|sf records IH]; intros acc Hl Hb Hr.
  - split; assumption.
  - cbn [fold_left]. apply IH.
    + apply lookup_step_values; [exact Hl | apply Hr; left; reflexivity].
    + apply by_name_step_statuses; [exact Hb | apply Hr; left; reflexivity].
    + intros sf' H. apply Hr. right. exact H.
Qed.

(** The index built from a report stores outcomes only. *)
Lemma built_index_outcomes (verification_data : VerificationData)
    (lookup : lookup_t) (by_name : by_name_t) :
  build_verification_lookup verification_data = Ok (lookup, by_name) ->
  values_in (fun s => In s outcomes) lookup
  /\ statuses_in (fun s => In s outcomes) by_name.
Proof.
  rewrite build_verification_lookup_ok. intros H. injection H as H.
  pose proof (fold_index_step_outcomes (fun s => In s outcomes)
                (records_in_order verification_data) ([], [])) as Hf.
  rewrite H in Hf. apply Hf.
  - intros k s [].
  - intros name l m [].
  - intros [status func] Hin. exact (records_in_order_outcome _ _ _ Hin).
Qed.

End Outcomes.

(* ================================================================== *)
(** * The resolver *)

Section Resolver.
Import DictFacts.

Lemma or_else_some (m k : result (option string)) (s : string) :
  m = Ok (Some s) -> (m otherwise k) = Ok (Some s).
Proof. intros ->. reflexivity. Qed.

Lemma or_else_none (m k : result (option string)) :
  m = Ok None -> (m otherwise k) = k.
Proof. intros ->. reflexivity. Qed.

Lemma exact_triple_get (lookup : lookup_t) (name path : string)
    (start_line : option Z) :
  exact_triple lookup name path start_line
  = Ok (match start_line with
        | Some _ => Dict.get key_eq_dec lookup (Key3 name path start_line)
        | None => None
        end).
Proof.
  unfold exact_triple, Dict.mem, Dict.getitem.
  destruct start_line as [line|]; [|reflexivity].
  destruct (Dict.get key_eq_dec lookup (Key3 name path (Some line))); reflexivity.
Qed.

Lemma exact_pair_get (lookup : lookup_t) (name path : string) :
  exact_pair lookup name path = Ok (Dict.get key_eq_dec lookup (Key2 name path)).
Proof.
  unfold exact_pair, Dict.mem, Dict.getitem.
  destruct (Dict.get key_eq_dec lookup (Key2 name path)); reflexivity.
Qed.

(** The scan over the items never raises ([rest[0]] is guarded by the test
    on [rest]) and returns the status of a scanned item. *)
Lemma partial_path_match_ok (name path : string) (start_line : option Z)
    (items : list (key * string)) :
  exists r, partial_path_match name path start_line items = Ok r
            /\ forall s, r = Some s -> exists k, In (k, s) items.
Proof.
  induction items as [|[k status] items [r [IH Hr]]].
  - exists None. split; [reflexivity | discriminate].
  - assert (Hrec : exists r', Ok r = Ok r'
              /\ forall s, r' = Some s -> exists k', In (k', s) ((k, status) :: items)).
    { exists r. split; [reflexivity|]. intros s Hs.
      destruct (Hr s Hs) as [k' Hk']. exists k'. right. exact Hk'. }
    assert (Hhit : exists r', Ok (Some status) = Ok r'
              /\ forall s, r' = Some s -> exists k', In (k', s) ((k, status) :: items)).
    { exists (Some status). split; [reflexivity|]. intros s Hs.
      injection Hs as <-. exists k. left. reflexivity. }
    cbn [partial_path_match]. rewrite IH.
    destruct (String.eqb (key_name k) name); [|exact Hrec].
    destruct (PyStr.contains (key_path k) path || PyStr.contains path (key_path k));
      [|exact Hrec].
    destruct k as [n p l|n p]; cbn [key_rest is_empty negb andb].
    + destruct (is_none start_line); cbn [negb]; [exact Hrec|].
      cbn [list_getitem nth_error bind].
      destruct (line_eqb l start_line); [exact Hhit | exact Hrec].
    + exact Hhit.
Qed.

(** A line-free entry of the node's name whose path overlaps the node's
    path ends the scan with some status. *)
Lemma partial_path_match_accepts (name path lpath status : string)
    (start_line : option Z) (items : list (key * string)) :
  In (Key2 name lpath, status) items ->
  PyStr.contains lpath path || PyStr.contains path lpath = true ->
  exists s, partial_path_match name path start_line items = Ok (Some s).
Proof.
  intros Hin Hov. induction items as [|[k st] items IH]; [contradiction|].
  cbn [partial_path_match].
  destruct Hin as [E|Hin].
  - injection E as -> ->. cbn [key_name key_path key_rest is_empty negb andb].
    rewrite String.eqb_refl, Hov. exists status. reflexivity.
  - destruct (IH Hin) as [s Hs]. rewrite Hs.
    destruct (String.eqb (key_name k) name); [|exists s; reflexivity].
    destruct (PyStr.contains (key_path k) path || PyStr.contains path (key_path k));
      [|exists s; reflexivity].
    destruct k as [n p l|n p]; cbn [key_rest is_empty negb andb].
    + destruct (is_none start_line); cbn [negb]; [exists s; reflexivity|].
      cbn [list_getitem nth_error bind].
      destruct (line_eqb l start_line); [exists st | exists s]; reflexivity.
    + exists st. reflexivity.
Qed.

Lemma match_path_ok (lookup : lookup_t) (name : string) (start_line : option Z)
    (path : string) :
  exists r, match_path lookup name start_line path = Ok r
            /\ forall s, r = Some s -> exists k, In (k, s) lookup.
Proof.
  unfold match_path. rewrite exact_triple_get, exact_pair_get.
  destruct (partial_path_match_ok name (normalize_path path) start_line lookup)
    as [r [Hp Hr]].
  rewrite Hp.
  destruct start_line as [line|].
  - destruct (Dict.get key_eq_dec lookup (Key3 name (normalize_path path) (Some line)))
      as [s|] eqn:E3; cbn [or_else bind].
    + exists (Some s). split; [reflexivity|]. intros s' H. injection H as <-.
      eexists. exact (get_In _ _ _ _ E3).
    + destruct (Dict.get key_eq_dec lookup (Key2 name (normalize_path path)))
        as [s|] eqn:E2; cbn [or_else bind].
      * exists (Some s). split; [reflexivity|]. intros s' H. injection H as <-.
        eexists. exact (get_In _ _ _ _ E2).
      * exists r. split; [destruct r; reflexivity | exact Hr].
  - cbn [or_else bind].
    destruct (Dict.get key_eq_dec lookup (Key2 name (normalize_path path)))
      as [s|] eqn:E2; cbn [or_else bind].
    + exists (Some s). split; [reflexivity|]. intros s' H. injection H as <-.
      eexists. exact (get_In _ _ _ _ E2).
    + exists r. split; [destruct r; reflexivity | exact Hr].
Qed.

Lemma try_paths_ok (lookup : lookup_t) (name : string) (start_line : option Z)
    (paths : list string) :
  exists r, try_paths lookup name start_line paths = Ok r
            /\ forall s, r = Some s -> exists k, In (k, s) lookup.
Proof.
  induction paths as [|path paths [r [IH Hr]]].
  - exists None. split; [reflexivity | discriminate].
  - cbn [try_paths]. destruct (String.eqb path ""); [exists r; auto|].
    destruct (match_path_ok lookup name start_line path) as [[s|] [Hm Hs]];
      rewrite Hm; cbn [or_else bind].
    + exists (Some s). auto.
    + exists r. auto.
Qed.

(** The distinct statuses of a non-empty unanimous list are one status. *)
Lemma nodup_unanimous (l : list string) (s : string) :
  l <> [] -> (forall x, In x l -> x = s) -> nodup string_dec l = [s].
Proof.
  induction l as [|x l IH]; intros Hne Hall; [contradiction|].
  cbn [nodup]. destruct l as [|y l].
  - cbn. rewrite (Hall x (or_introl eq_refl)). reflexivity.
  - destruct (in_dec string_dec x (y :: l)) as [_|Hn].
    + apply IH; [discriminate|]. intros z Hz. apply Hall. right. exact Hz.
    + exfalso. apply Hn. left.
      rewrite (Hall x (or_introl eq_refl)), (Hall y (or_intror (or_introl eq_refl))).
      reflexivity.
Qed.

(** Two different statuses give at least two distinct statuses. *)
Lemma nodup_conflict (l : list string) (a b : string) :
  In a l -> In b l -> a <> b -> Nat.eqb (List.length (nodup string_dec l)) 1 = false.
Proof.
  intros Ha Hb Hab. apply (nodup_In string_dec) in Ha, Hb.
  destruct (nodup string_dec l) as [|x [|y t]]; [contradiction| |reflexivity].
  destruct Ha as [<-|[]], Hb as [<-|[]]. contradiction.
Qed.

Lemma name_only_ok (by_name : by_name_t) (name : string) :
  exists r, name_only by_name name = Ok r
            /\ forall s, r = Some s ->
                 exists m, In m (records_named by_name name) /\ m_status m = s.
Proof.
  unfold name_only, records_named, Dict.mem, Dict.getitem.
  destruct (Dict.get string_dec by_name name) as [matches|];
    [|exists None; split; [reflexivity | discriminate]].
  cbn [bind get_default].
  assert (Hhead : forall m ms, matches = m :: ms ->
            exists r, (m0 <- list_getitem matches 0 ;; Ok (Some (m_status m0))) = Ok r
              /\ forall s, r = Some s -> exists m', In m' matches /\ m_status m' = s).
  { intros m ms ->. exists (Some (m_status m)). split; [reflexivity|].
    intros s H. injection H as <-. exists m. split; [left|]; reflexivity. }
  destruct matches as [|m ms].
  - exists None. split; [reflexivity | discriminate].
  - destruct (Nat.eqb (List.length (nodup string_dec (map m_status (m :: ms)))) 1);
      [exact (Hhead m ms eq_refl)|].
    destruct (Nat.eqb (List.length (m :: ms)) 1); [exact (Hhead m ms eq_refl)|].
    exists None. split; [reflexivity | discriminate].
Qed.

(** The resolver never raises, whatever the node and the index. *)
Lemma find_verification_status_ok (node : GraphNode) (lookup : lookup_t)
    (by_name : by_name_t) :
  exists r, find_verification_status node lookup by_name = Ok r
    /\ forall s, r = Some s ->
         (exists k, In (k, s) lookup)
         \/ (exists m, In m (records_named by_name (get_default (display_name node) ""))
                       /\ m_status m = s).
Proof.
  unfold find_verification_status.
  destruct (try_paths_ok lookup (get_default (display_name node) "")
              (start_line node)
              [get_default (relative_path node) ""; get_default (full_path node) ""])
    as [[s|] [Ht Hs]]; rewrite Ht; cbn [or_else bind].
  - exists (Some s). split; [reflexivity|]. intros s' H. left. exact (Hs s' H).
  - destruct (name_only_ok by_name (get_default (display_name node) ""))
      as [r [Hn Hr]].
    exists r. split; [exact Hn|]. intros s' H. right. exact (Hr s' H).
Qed.

End Resolver.

(* ================================================================== *)
(** * The enrichment pass *)

Section Enrichment.
Import DictFacts.

Lemma increment_ok (stats : stats_t) (k : string) :
  counters_present stats -> In k ("unknown" :: outcomes) ->
  exists stats', increment stats k = Ok stats' /\ counters_present stats'.
Proof.
  intros Hc Hk. destruct (Hc k Hk) as [n Hn].
  unfold increment. rewrite (getitem_get _ _ _ _ Hn). cbn [bind].
  eexists. split; [reflexivity|].
  intros k' Hk'. destruct (string_dec k k') as [<-|Hne].
  - rewrite get_set_same. eauto.
  - rewrite get_set_other by exact Hne. exact (Hc k' Hk').
Qed.

Lemma outcome_truthy (s : string) : In s outcomes -> String.eqb s "" = false.
Proof. intros [<-|[<-|[<-|[]]]]; reflexivity. Qed.

Lemma set_verification_status_frame (node : GraphNode) (s : string) :
  same_except_status node (set_verification_status node s)
  /\ verification_status (set_verification_status node s) = Some (Some s).
Proof. unfold same_except_status. cbn. repeat split. Qed.

Lemma process_node_ok (lookup : lookup_t) (by_name : by_name_t)
    (stats : stats_t) (node : GraphNode) :
  values_in (fun s => In s outcomes) lookup ->
  statuses_in (fun s => In s outcomes) by_name ->
  counters_present stats ->
  exists node' stats',
    process_node lookup by_name stats node = Ok (node', stats')
    /\ counters_present stats'
    /\ enriched lookup by_name node node'.
Proof.
  intros Hl Hb Hc. unfold process_node, enriched.
  destruct (find_verification_status_ok node lookup by_name) as [[s|] [Hf Hs]];
    rewrite Hf; cbn [bind truthy].
  - assert (Ho : In s outcomes).
    { destruct (Hs s eq_refl) as [[k Hk]|[m [Hm <-]]]; [exact (Hl _ _ Hk)|].
      unfold records_named in Hm.
      destruct (Dict.get string_dec by_name (get_default (display_name node) ""))
        as [l|] eqn:E; cbn [get_default] in Hm; [|contradiction].
      exact (Hb _ _ _ (get_In _ _ _ _ E) Hm). }
    rewrite (outcome_truthy s Ho). cbn [negb].
    destruct (increment_ok stats s Hc (or_intror Ho)) as [stats' [Hi Hc']].
    rewrite Hi. cbn [bind]. do 2 eexists. split; [reflexivity|].
    split; [exact Hc'|]. right. exists s.
    destruct (set_verification_status_frame node s) as [H1 H2]. auto.
  - destruct (increment_ok stats "unknown" Hc (or_introl eq_refl)) as [stats' [Hi Hc']].
    rewrite Hi. cbn [bind]. do 2 eexists. split; [reflexivity|]. auto.
Qed.

Lemma process_nodes_ok (lookup : lookup_t) (by_name : by_name_t)
    (node_list : list GraphNode) (stats : stats_t) :
  values_in (fun s => In s outcomes) lookup ->
  statuses_in (fun s => In s outcomes) by_name ->
  counters_present stats ->
  exists node_list' stats',
    process_nodes lookup by_name stats node_list = Ok (node_list', stats')
    /\ Forall2 (enriched lookup by_name) node_list node_list'.
Proof.
  intros Hl Hb. revert stats.
  induction node_list as [|node node_list IH]; intros stats Hc.
  - exists [], stats. split; [reflexivity | constructor].
  - destruct (process_node_ok lookup by_name stats node Hl Hb Hc)
      as [node' [stats1 [Hn [Hc1 He]]]].
    destruct (IH stats1 Hc1) as [done [stats2 [Hr HF]]].
    cbn [process_nodes]. rewrite Hn. cbn [bind]. rewrite Hr. cbn [bind].
    exists (node' :: done), stats2. split; [reflexivity|].
    constructor; assumption.
Qed.

Lemma initial_stats_present : counters_present initial_stats.
Proof.
  intros k [<-|[<-|[<-|[<-|[]]]]]; cbn; eauto.
Qed.

End Enrichment.

(* ================================================================== *)
(** * Worked scenarios *)

Example split_scenario_trace :
  build_verification_lookup Scenario.split_report
  = Ok ([ (Key3 "f" "src/b.rs" (Some 5%Z), "verified");
          (Key2 "f" "src/b.rs", "verified");
          (Key3 "f" "src/a.rs" (Some 10%Z), "failed");
          (Key2 "f" "src/a.rs", "failed") ],
        [ ("f", [ mkMatch "src/b.rs" "verified" (Some 5%Z) None;
                  mkMatch "src/a.rs" "failed" (Some 10%Z) None ]) ])
  /\ match_path (fst (index_of_report Scenario.split_report)) "f"
       (Some 10%Z) "src/b.rs" = Ok (Some "verified").
Proof. split; vm_compute; reflexivity. Qed.

Example scheme_reappears :
  normalize_path "fifile://le://x" = "file://x"
  /\ normalize_path "file://x" = "x".
Proof. split; reflexivity. Qed.

Example unanimity_scenario :
  find_verification_status Scenario.foo_node
    (fst (index_of_report Scenario.foo_report))
    (snd (index_of_report Scenario.foo_report))
  = Ok (Some "verified").
Proof. vm_compute. reflexivity. Qed.

Example ambiguity_scenario :
  find_verification_status Scenario.bar_node
    (fst (index_of_report Scenario.bar_report))
    (snd (index_of_report Scenario.bar_report))
  = Ok None.
Proof. vm_compute. reflexivity. Qed.

Example unknown_scenario :
  process_graph
    (mkGraphData (Some [mkGraphNode (Some "n1") (Some "zzz") (Some "src/z.rs")
                          None (Some 1%Z) None []]) [])
    Scenario.add_report
  = Ok (mkGraphData (Some [mkGraphNode (Some "n1") (Some "zzz") (Some "src/z.rs")
                             None (Some 1%Z) None []]) [],
        [("verified", 0%Z); ("failed", 0%Z); ("unverified", 0%Z); ("unknown", 1%Z)]).
Proof. vm_compute. reflexivity. Qed.

(* ================================================================== *)
(** * Properties of the specification *)

Section Claims.
Import DictFacts PyStrFacts.

Lemma built_index (verification_data : VerificationData) :
  build_verification_lookup verification_data
  = Ok (fst (index_of_report verification_data),
        snd (index_of_report verification_data)).
Proof.
  rewrite build_verification_lookup_ok. unfold index_of_report.
  destruct (fold_left index_step _ _). reflexivity.
Qed.

Lemma built_lookup_pair (verification_data : VerificationData) (name path : string) :
  Dict.get key_eq_dec (fst (index_of_report verification_data))
    (Key2 name path)
  = option_map fst (List.find (has_key (Key2 name path) pair_key)
                      (records_in_order verification_data)).
Proof.
  unfold index_of_report. rewrite fold_index_step_fst.
  rewrite fold_lookup_pair. reflexivity.
Qed.

Lemma built_lookup_triple (verification_data : VerificationData)
    (name path : string) (line : option Z) :
  Dict.get key_eq_dec (fst (index_of_report verification_data))
    (Key3 name path line)
  = option_map fst (List.find (has_key (Key3 name path line) triple_key)
                      (rev (records_in_order verification_data))).
Proof.
  unfold index_of_report. rewrite fold_index_step_fst.
  rewrite fold_lookup_triple.
  destruct (List.find _ (rev _)); reflexivity.
Qed.

Lemma find_none_all {A : Type} (f : A -> bool) (l : list A) :
  (forall x, In x l -> f x = false) -> List.find f l = None.
Proof.
  induction l as [|a l IH]; intros H; [reflexivity|].
  cbn. rewrite (H a (or_introl eq_refl)). apply IH.
  intros x Hx. apply H. right. exact Hx.
Qed.

Lemma has_key_true (k : key) (of_record : FunctionRecord -> key)
    (sf : string * FunctionRecord) :
  of_record (snd sf) = k -> has_key k of_record sf = true.
Proof.
  intros H. unfold has_key. destruct (key_eq_dec (of_record (snd sf)) k);
    [reflexivity | contradiction].
Qed.

Lemma has_key_false (k : key) (of_record : FunctionRecord -> key)
    (sf : string * FunctionRecord) :
  of_record (snd sf) <> k -> has_key k of_record sf = false.
Proof.
  intros H. unfold has_key. destruct (key_eq_dec (of_record (snd sf)) k);
    [contradiction | reflexivity].
Qed.

Lemma match_path_triple_hit (lookup : lookup_t) (name path status : string)
    (line : Z) :
  Dict.get key_eq_dec lookup (Key3 name (normalize_path path) (Some line))
  = Some status ->
  match_path lookup name (Some line) path = Ok (Some status).
Proof.
  intros H. unfold match_path. rewrite exact_triple_get, H. reflexivity.
Qed.

Lemma match_path_accepts (lookup : lookup_t) (name path status : string)
    (start_line : option Z) :
  In (Key2 name "", status) lookup ->
  exists s, match_path lookup name start_line path = Ok (Some s)
            /\ exists k, In (k, s) lookup.
Proof.
  intros Hin.
  destruct (match_path_ok lookup name start_line path) as [[s|] [Hm Hr]].
  - exists s. split; [exact Hm | exact (Hr s eq_refl)].
  - exfalso. unfold match_path in Hm.
    rewrite exact_triple_get, exact_pair_get in Hm.
    destruct (partial_path_match_accepts name (normalize_path path) "" status
                start_line lookup Hin) as [s Hs].
    { rewrite contains_empty. reflexivity. }
    rewrite Hs in Hm.
    destruct start_line;
      repeat match type of Hm with
             | context [Dict.get ?e ?d ?k] => destruct (Dict.get e d k)
             end; discriminate.
Qed.




(** C2, as stated, fails: [normalize_path "a/src/b/src/c"] is
    ["src/b/src/c"], which still holds a [/src/] segment and normalizes
    to ["src/c"]. *)
Lemma normalize_path_not_idempotent :
  ~ (forall p : string, normalize_path (normalize_path p) = normalize_path p).
Proof.
  intros H. specialize (H "a/src/b/src/c"). vm_compute in H. discriminate.
Qed.

(** C2, amended. When the normalized path holds neither a [file://] scheme
    nor a [/src/] segment, normalizing it again changes nothing. *)
Theorem normalize_path_idempotent_on_clean_result (p : string) :
  PyStr.contains "file://" (normalize_path p) = false ->
  PyStr.contains "/src/" (normalize_path p) = false ->
  normalize_path (normalize_path p) = normalize_path p.
Proof.
  intros Hf Hs. apply normalize_path_fixed; [exact Hf | exact Hs |].
  apply normalize_path_shape.
Qed.

Lemma normalize_path_idempotent_on_clean_result_witness :
  normalize_path (normalize_path "proj/proj/src/a/b.rs")
  = normalize_path "proj/proj/src/a/b.rs".
Proof.
  apply normalize_path_idempotent_on_clean_result; reflexivity.
Defined.

(** C3. When no path-based strategy succeeds for either candidate path,
    the resolver decides on the records indexed under the node's name:
    a non-empty unanimous list gives its outcome, a single record gives
    its outcome, and no record or two records of different outcomes give
    none. *)
Theorem name_only_fallback (node : GraphNode) (lookup : lookup_t)
    (by_name : by_name_t) :
  try_paths lookup (get_default (display_name node) "") (start_line node)
    [get_default (relative_path node) ""; get_default (full_path node) ""]
  = Ok None ->
  (forall s, records_named by_name (get_default (display_name node) "") <> [] ->
             (forall m, In m (records_named by_name (get_default (display_name node) ""))
                        -> m_status m = s) ->
             find_verification_status node lookup by_name = Ok (Some s))
  /\ (forall m, records_named by_name (get_default (display_name node) "") = [m] ->
                find_verification_status node lookup by_name = Ok (Some (m_status m)))
  /\ (records_named by_name (get_default (display_name node) "") = []
      \/ (exists m1 m2,
            In m1 (records_named by_name (get_default (display_name node) ""))
            /\ In m2 (records_named by_name (get_default (display_name node) ""))
            /\ m_status m1 <> m_status m2) ->
      find_verification_status node lookup by_name = Ok None).
Proof.
  intros Hpaths.
  assert (Hfind : find_verification_status node lookup by_name
                  = name_only by_name (get_default (display_name node) "")).
  { unfold find_verification_status. apply or_else_none. exact Hpaths. }
  rewrite Hfind. clear Hfind Hpaths.
  generalize (get_default (display_name node) ""). intros name.
  unfold records_named, name_only, Dict.mem, Dict.getitem.
  assert (Hall : forall matches s, matches <> [] ->
            (forall m, In m matches -> m_status m = s) ->
            (if Nat.eqb (List.length (nodup string_dec (map m_status matches))) 1
             then m <- list_getitem matches 0 ;; Ok (Some (m_status m))
             else if Nat.eqb (List.length matches) 1
                  then m <- list_getitem matches 0 ;; Ok (Some (m_status m))
                  else Ok None) = Ok (Some s)).
  { intros matches s Hne Hs.
    rewrite (nodup_unanimous (map m_status matches) s).
    - destruct matches as [|m ms]; [contradiction|].
      cbn. rewrite (Hs m (or_introl eq_refl)). reflexivity.
    - destruct matches; [contradiction | discriminate].
    - intros x Hx. apply in_map_iff in Hx. destruct Hx as [m [<- Hm]].
      exact (Hs m Hm). }
  destruct (Dict.get string_dec by_name name) as [matches|]; cbn [get_default bind].
  - split; [|split].
    + intros s Hne Hs. exact (Hall matches s Hne Hs).
    + intros m ->. apply Hall; [discriminate|].
      intros m' [<-|[]]. reflexivity.
    + intros [-> | [m1 [m2 [H1 [H2 Hd]]]]]; [reflexivity|].
      rewrite (nodup_conflict (map m_status matches) (m_status m1) (m_status m2));
        [| apply in_map; assumption | apply in_map; assumption | exact Hd].
      destruct matches as [|a [|b t]]; [contradiction| |reflexivity].
      destruct H1 as [<-|[]], H2 as [<-|[]]. contradiction.
  - split; [|split].
    + intros s Hne. contradiction.
    + discriminate.
    + intros _. reflexivity.
Qed.

Lemma name_only_fallback_witness :
  find_verification_status Scenario.foo_node
    (fst (index_of_report Scenario.foo_report))
    (snd (index_of_report Scenario.foo_report))
  = Ok (Some "verified")
  /\ find_verification_status Scenario.bar_node
       (fst (index_of_report Scenario.bar_report))
       (snd (index_of_report Scenario.bar_report))
     = Ok None.
Proof.
  split.
  - apply (name_only_fallback Scenario.foo_node
             (fst (index_of_report Scenario.foo_report))
             (snd (index_of_report Scenario.foo_report))).
    + vm_compute. reflexivity.
    + vm_compute. discriminate.
    + vm_compute. intros m [<-|[<-|[<-|[]]]]; reflexivity.
  - apply (name_only_fallback Scenario.bar_node
             (fst (index_of_report Scenario.bar_report))
             (snd (index_of_report Scenario.bar_report))).
    + vm_compute. reflexivity.
    + right.
      exists (mkMatch "src/a.rs" "verified" None None),
             (mkMatch "src/b.rs" "failed" None None).
      vm_compute. split; [left; reflexivity|].
      split; [right; left; reflexivity | discriminate].
Defined.

Lemma records_in_order_categories (verification_data : VerificationData) :
  records_in_order verification_data
  = map (pair "verified") (category verification_data "verified_functions")
    ++ map (pair "failed") (category verification_data "failed_functions")
    ++ map (pair "unverified") (category verification_data "unverified_functions").
Proof.
  unfold records_in_order, status_mapping. cbn [flat_map fst snd].
  rewrite app_nil_r. reflexivity.
Qed.

(** C4. The builder processes the categories in the order verified, failed,
    unverified; when two records share a pair key, the pair key keeps the
    status of the record that is processed first. *)
Theorem pair_key_first_writer_wins (verification_data : VerificationData)
    (before between after : list (string * FunctionRecord))
    (s1 s2 : string) (f1 f2 : FunctionRecord) :
  records_in_order verification_data
  = before ++ (s1, f1) :: between ++ (s2, f2) :: after ->
  pair_key f2 = pair_key f1 ->
  (forall sf, In sf before -> pair_key (snd sf) <> pair_key f1) ->
  records_in_order verification_data
  = map (pair "verified") (category verification_data "verified_functions")
    ++ map (pair "failed") (category verification_data "failed_functions")
    ++ map (pair "unverified") (category verification_data "unverified_functions")
  /\ exists lookup by_name,
       build_verification_lookup verification_data = Ok (lookup, by_name)
       /\ Dict.get key_eq_dec lookup (pair_key f1) = Some s1
       /\ Dict.get key_eq_dec lookup (pair_key f2) = Some s1.
Proof.
  intros Hrec Hsame Hfirst. split; [apply records_in_order_categories|].
  do 2 eexists. split; [apply built_index|].
  rewrite Hsame.
  assert (H : Dict.get key_eq_dec
                (fst (index_of_report verification_data)) (pair_key f1)
              = Some s1); [|split; exact H].
  unfold pair_key at 1. rewrite built_lookup_pair. fold (pair_key f1).
  rewrite Hrec, find_app, find_none_all.
  - cbn [List.find]. rewrite has_key_true by reflexivity. reflexivity.
  - intros sf Hin. apply has_key_false. exact (Hfirst sf Hin).
Qed.

Lemma pair_key_first_writer_wins_witness :
  exists lookup by_name,
    build_verification_lookup Scenario.clash_report = Ok (lookup, by_name)
    /\ Dict.get key_eq_dec lookup (Key2 "g" "src/g.rs") = Some "verified".
Proof.
  destruct (pair_key_first_writer_wins Scenario.clash_report [] [] []
              "verified" "unverified"
              (mkFunctionRecord (Some "g") (Some "src/g.rs")
                 (Some (mkCodeText (Some 3%Z) (Some 9%Z))))
              (mkFunctionRecord (Some "g") (Some "p/src/g.rs")
                 (Some (mkCodeText (Some 3%Z) (Some 9%Z)))))
    as [_ [lookup [by_name [Hb [H1 _]]]]].
  - vm_compute. reflexivity.
  - vm_compute. reflexivity.
  - intros sf [].
  - exists lookup, by_name. split; [exact Hb | exact H1].
Defined.

(** C5. End to end: the report with the single verified record [add] at
    [crate/src/lib.rs], line 10, and the node [add] at
    [crate/crate/src/lib.rs], line 10. Both paths normalize to
    [src/lib.rs], the exact-triple tier answers [verified], and the node
    gains that status. *)
Theorem end_to_end_scenario :
  normalize_path "crate/src/lib.rs" = "src/lib.rs"
  /\ normalize_path "crate/crate/src/lib.rs" = "src/lib.rs"
  /\ exists lookup by_name,
       build_verification_lookup Scenario.add_report = Ok (lookup, by_name)
       /\ lookup = [ (Key3 "add" "src/lib.rs" (Some 10%Z), "verified");
                     (Key2 "add" "src/lib.rs", "verified") ]
       /\ by_name = [ ("add", [mkMatch "src/lib.rs" "verified" (Some 10%Z) None]) ]
       /\ exact_triple lookup "add" "src/lib.rs" (Some 10%Z) = Ok (Some "verified")
       /\ find_verification_status Scenario.add_node lookup by_name
          = Ok (Some "verified")
       /\ process_graph Scenario.add_graph Scenario.add_report
          = Ok (mkGraphData
                  (Some [set_verification_status Scenario.add_node "verified"]) [],
                [("verified", 1%Z); ("failed", 0%Z); ("unverified", 0%Z);
                 ("unknown", 0%Z)])
       /\ verification_status (set_verification_status Scenario.add_node "verified")
          = Some (Some "verified").
Proof.
  split; [reflexivity|]. split; [reflexivity|].
  do 2 eexists. split; [vm_compute; reflexivity|].
  split; [reflexivity|]. split; [reflexivity|].
  repeat split; vm_compute; reflexivity.
Qed.

(** C6. The enrichment pass returns the graph document with every member
    kept; a node for which the resolver returns none is returned as it is,
    and a resolved node differs from the input node only in its
    [verification_status], which holds one of the three outcomes. *)
Theorem process_graph_frame (graph_data : GraphData)
    (verification_data : VerificationData) :
  exists lookup by_name out stats,
    build_verification_lookup verification_data = Ok (lookup, by_name)
    /\ process_graph graph_data verification_data = Ok (out, stats)
    /\ graph_extra out = graph_extra graph_data
    /\ match nodes graph_data with
       | None => nodes out = None
       | Some node_list =>
           exists node_list',
             nodes out = Some node_list'
             /\ Forall2 (enriched lookup by_name) node_list node_list'
       end.
Proof.
  pose proof (built_index verification_data) as Hb.
  destruct (built_index_outcomes _ _ _ Hb) as [Hl Hn].
  set (lookup := fst (index_of_report verification_data)) in *.
  set (by_name := snd (index_of_report verification_data)) in *.
  destruct (process_nodes_ok lookup by_name (get_default (nodes graph_data) [])
              initial_stats Hl Hn initial_stats_present)
    as [node_list' [stats [Hp HF]]].
  exists lookup, by_name.
  exists (mkGraphData (option_map (fun _ => node_list') (nodes graph_data))
            (graph_extra graph_data)), stats.
  split; [exact Hb|]. split.
  - unfold process_graph. rewrite Hb. cbn [bind]. rewrite Hp. reflexivity.
  - split; [reflexivity|]. cbn [nodes].
    destruct (nodes graph_data) as [node_list|]; cbn [option_map get_default] in *.
    + exists node_list'. split; [reflexivity | exact HF].
    + reflexivity.
Qed.

(** C7. A duplicated project prefix collapses to the [src] anchor, and a
    path without anchor is returned unchanged. *)
Theorem normalize_path_examples :
  normalize_path "proj/proj/src/a/b.rs" = "src/a/b.rs"
  /\ normalize_path "no/anchor/here.rs" = "no/anchor/here.rs".
Proof. split; reflexivity. Qed.

(** ** The builder on JSON values and the builder on typed records *)

(** Dictionary operations commute with a one-to-one renaming of the keys
    and a mapping of the values. *)
Lemma get_map_kv {K K' V V' : Type}
    (eq_dec : forall x y : K, {x = y} + {x <> y})
    (eq_dec' : forall x y : K', {x = y} + {x <> y})
    (g : K -> K') (h : V -> V') (d : list (K * V)) (k : K) :
  (forall x y, g x = g y -> x = y) ->
  Dict.get eq_dec' (map (fun kv => (g (fst kv), h (snd kv))) d) (g k)
  = option_map h (Dict.get eq_dec d k).
Proof.
  intros Hinj. induction d as [|[k0 v0] d IH]; [reflexivity|].
  cbn [map Dict.get fst snd].
  destruct (eq_dec' (g k) (g k0)) as [E|E], (eq_dec k k0) as [E0|E0].
  - reflexivity.
  - exfalso. exact (E0 (Hinj _ _ E)).
  - exfalso. apply E. rewrite E0. reflexivity.
  - exact IH.
Qed.

Lemma mem_map_kv {K K' V V' : Type}
    (eq_dec : forall x y : K, {x = y} + {x <> y})
    (eq_dec' : forall x y : K', {x = y} + {x <> y})
    (g : K -> K') (h : V -> V') (d : list (K * V)) (k : K) :
  (forall x y, g x = g y -> x = y) ->
  Dict.mem eq_dec' (map (fun kv => (g (fst kv), h (snd kv))) d) (g k)
  = Dict.mem eq_dec d k.
Proof.
  intros Hinj. unfold Dict.mem. rewrite (get_map_kv eq_dec eq_dec' g h d k Hinj).
  destruct (Dict.get eq_dec d k); reflexivity.
Qed.

Lemma set_map_kv {K K' V V' : Type}
    (eq_dec : forall x y : K, {x = y} + {x <> y})
    (eq_dec' : forall x y : K', {x = y} + {x <> y})
    (g : K -> K') (h : V -> V') (d : list (K * V)) (k : K) (v : V) :
  (forall x y, g x = g y -> x = y) ->
  Dict.set eq_dec' (map (fun kv => (g (fst kv), h (snd kv))) d) (g k) (h v)
  = map (fun kv => (g (fst kv), h (snd kv))) (Dict.set eq_dec d k v).
Proof.
  intros Hinj. induction d as [|[k0 v0] d IH]; [reflexivity|].
  cbn [map Dict.set fst snd].
  destruct (eq_dec' (g k) (g k0)) as [E|E], (eq_dec k k0) as [E0|E0].
  - reflexivity.
  - exfalso. exact (E0 (Hinj _ _ E)).
  - exfalso. apply E. rewrite E0. reflexivity.
  - cbn [map fst snd]. rewrite IH. reflexivity.
Qed.

Lemma scalar_of_line_inj (a b : option Z) :
  scalar_of_line a = scalar_of_line b -> a = b.
Proof. destruct a, b; cbn; congruence. Qed.

Lemma raw_of_key_inj (x y : key) : raw_of_key x = raw_of_key y -> x = y.
Proof.
  destruct x as [n p l|n p], y as [n' p' l'|n' p']; cbn; intros H;
    try discriminate.
  - injection H as -> -> Hl. apply scalar_of_line_inj in Hl. subst. reflexivity.
  - injection H as -> ->. reflexivity.
Qed.

Lemma SStr_inj (x y : string) : SStr x = SStr y -> x = y.
Proof. congruence. Qed.

(** What the builder reads from the JSON form of a typed record. *)
Lemma json_get_display_name (func : FunctionRecord) :
  json_get (json_of_function func) "display-name" (JStr "")
  = Ok (JStr (record_name func)).
Proof. destruct func as [[n|] [p|] [t|]]; reflexivity. Qed.

Lemma json_get_code_path (func : FunctionRecord) :
  json_get (json_of_function func) "code-path" (JStr "")
  = Ok (JStr (get_default (func_code_path func) "")).
Proof. destruct func as [[n|] [p|] [t|]]; reflexivity. Qed.

Lemma json_get_code_text (func : FunctionRecord) :
  json_get (json_of_function func) "code-text" (JObj [])
  = Ok (json_of_code_text
          (get_default (func_code_text func) (mkCodeText None None))).
Proof. destruct func as [[n|] [p|] [t|]]; reflexivity. Qed.

Lemma json_get_lines_start (code_text : CodeText) :
  json_get (json_of_code_text code_text) "lines-start" JNull
  = Ok (json_of_line (lines_start code_text)).
Proof. destruct code_text as [[s|] [e|]]; reflexivity. Qed.

Lemma json_get_lines_end (code_text : CodeText) :
  json_get (json_of_code_text code_text) "lines-end" JNull
  = Ok (json_of_line (lines_end code_text)).
Proof. destruct code_text as [[s|] [e|]]; reflexivity. Qed.

Lemma hash_key_line (line : option Z) :
  hash_key (json_of_line line) = Ok (scalar_of_line line).
Proof. destruct line; reflexivity. Qed.

Lemma raw_lookup_step (lookup : lookup_t) (status : string)
    (func : FunctionRecord) :
  (if negb (Dict.mem raw_key_eq_dec
              (Dict.set raw_key_eq_dec (raw_of_lookup lookup)
                 (raw_of_key (triple_key func)) status)
              (raw_of_key (pair_key func)))
   then Dict.set raw_key_eq_dec
          (Dict.set raw_key_eq_dec (raw_of_lookup lookup)
             (raw_of_key (triple_key func)) status)
          (raw_of_key (pair_key func)) status
   else Dict.set raw_key_eq_dec (raw_of_lookup lookup)
          (raw_of_key (triple_key func)) status)
  = raw_of_lookup (lookup_step lookup (status, func)).
Proof.
  unfold lookup_step, raw_of_lookup. cbn [fst snd].
  rewrite (set_map_kv key_eq_dec raw_key_eq_dec raw_of_key (fun s : string => s)
             lookup (triple_key func) status raw_of_key_inj).
  rewrite (mem_map_kv key_eq_dec raw_key_eq_dec raw_of_key (fun s : string => s)
             _ (pair_key func) raw_of_key_inj).
  destruct (Dict.mem key_eq_dec _ (pair_key func)); cbn [negb]; [reflexivity|].
  apply (set_map_kv key_eq_dec raw_key_eq_dec raw_of_key (fun s : string => s)
           _ (pair_key func) status raw_of_key_inj).
Qed.

Lemma raw_by_name_step {A : Type} (by_name : by_name_t) (name : string)
    (e : Match) (x : A) :
  (l <- Dict.getitem scalar_eq_dec
          (if negb (Dict.mem scalar_eq_dec (raw_of_by_name by_name) (SStr name))
           then Dict.set scalar_eq_dec (raw_of_by_name by_name) (SStr name) []
           else raw_of_by_name by_name)
          (SStr name) ;;
   Ok (x,
       Dict.set scalar_eq_dec
         (if negb (Dict.mem scalar_eq_dec (raw_of_by_name by_name) (SStr name))
          then Dict.set scalar_eq_dec (raw_of_by_name by_name) (SStr name) []
          else raw_of_by_name by_name)
         (SStr name) (l ++ [raw_of_match e])))
  = Ok (x,
        raw_of_by_name
          (Dict.set string_dec by_name name
             (get_default (Dict.get string_dec by_name name) [] ++ [e]))).
Proof.
  unfold raw_of_by_name, Dict.getitem.
  rewrite (mem_map_kv string_dec scalar_eq_dec SStr (map raw_of_match)
             by_name name SStr_inj).
  destruct (Dict.mem string_dec by_name name) eqn:Em; cbn [negb].
  - apply DictFacts.mem_get in Em. destruct Em as [l Hl].
    rewrite (get_map_kv string_dec scalar_eq_dec SStr (map raw_of_match)
               by_name name SStr_inj), Hl.
    cbn [option_map bind get_default]. f_equal. f_equal.
    rewrite <- (set_map_kv string_dec scalar_eq_dec SStr (map raw_of_match)
                  by_name name _ SStr_inj).
    rewrite map_app. reflexivity.
  - apply DictFacts.mem_false in Em. rewrite Em. cbn [get_default app].
    rewrite DictFacts.get_set_same. cbn [bind app].
    rewrite DictFacts.set_set.
    rewrite <- (set_map_kv string_dec scalar_eq_dec SStr (map raw_of_match)
                  by_name name [e] SStr_inj).
    reflexivity.
Qed.

(** On the JSON form of a typed record the two builders take the same
    step. *)
Lemma add_function_json_typed (status : string) (acc : lookup_t * by_name_t)
    (func : FunctionRecord) :
  add_function_json status (raw_of_lookup (fst acc), raw_of_by_name (snd acc))
    (json_of_function func)
  = Ok (raw_of_lookup (fst (index_step acc (status, func))),
        raw_of_by_name (snd (index_step acc (status, func)))).
Proof.
  destruct acc as [lookup by_name]. unfold add_function_json.
  cbn [fst snd].
  rewrite json_get_display_name, json_get_code_path, json_get_code_text.
  cbn [bind]. rewrite json_get_lines_start, json_get_lines_end. cbn [bind].
  cbn [normalize_path_json hash_key bind]. rewrite hash_key_line. cbn [bind].
  unfold index_step. cbn [fst snd].
  rewrite <- (raw_lookup_step lookup status func).
  exact (raw_by_name_step by_name (record_name func) (match_of (status, func)) _).
Qed.

Lemma foldM_add_function_json (status : string) (functions : list FunctionRecord)
    (acc : lookup_t * by_name_t) :
  foldM (add_function_json status)
    (raw_of_lookup (fst acc), raw_of_by_name (snd acc))
    (map json_of_function functions)
  = Ok (raw_of_lookup
          (fst (fold_left index_step (map (pair status) functions) acc)),
        raw_of_by_name
          (snd (fold_left index_step (map (pair status) functions) acc))).
Proof.
  revert acc. induction functions as [|func functions IH]; intros acc.
  - reflexivity.
  - cbn [map foldM fold_left]. rewrite add_function_json_typed. cbn [bind].
    apply IH.
Qed.

Lemma json_get_category (verification : list (string * list FunctionRecord))
    (key : string) :
  json_get (JObj (map json_of_category verification)) key (JArr [])
  = Ok (JArr (map json_of_function
                (get_default (Dict.get string_dec verification key) []))).
Proof.
  cbn [json_get]. f_equal.
  unfold json_of_category.
  rewrite (get_map_kv string_dec string_dec (fun k : string => k)
             (fun fs => JArr (map json_of_function fs)) verification key)
    by auto.
  destruct (Dict.get string_dec verification key); reflexivity.
Qed.

(** The builder on the JSON form of a typed report never raises and
    returns the index of the builder on typed records. *)
Lemma build_verification_lookup_json_typed
    (verification_data : VerificationData) :
  build_verification_lookup_json (json_of_report verification_data)
  = Ok (raw_of_lookup (fst (index_of_report verification_data)),
        raw_of_by_name (snd (index_of_report verification_data))).
Proof.
  unfold build_verification_lookup_json, index_of_report, records_in_order.
  assert (Hv : json_get (json_of_report verification_data) "verification" (JObj [])
               = Ok (JObj (map json_of_category
                             (get_default (verification verification_data) [])))).
  { unfold json_of_report.
    destruct (verification verification_data); reflexivity. }
  rewrite Hv. cbn [bind].
  change (@nil (raw_key * string), @nil (scalar * list RawMatch))
    with (raw_of_lookup (fst (@nil (key * string), @nil (string * list Match))),
          raw_of_by_name (snd (@nil (key * string), @nil (string * list Match)))).
  generalize (@nil (key * string), @nil (string * list Match)).
  induction status_mapping as [|[key status] mapping IH]; intros acc.
  - reflexivity.
  - cbn [foldM flat_map fst snd]. unfold add_category_json at 1.
    rewrite json_get_category. cbn [bind json_iter].
    fold (category verification_data key).
    rewrite foldM_add_function_json. cbn [bind].
    rewrite fold_left_app. apply IH.
Qed.

(** C8, as stated, fails. A record whose [code-text] holds null, and one
    whose [code-path] holds null, lack the members the claim is about and
    make the builder raise [AttributeError] ([None] has neither [get] nor
    [replace]). And a missing member can add a match instead of removing
    one: node [bar] with an unrelated path resolves to none on the report
    with a verified [bar] in [src/a.rs] and a failed [bar] in [src/b.rs],
    and to [failed] once the failed record has lost its [code-path]. *)
Lemma core_raises_and_missing_member_adds_match :
  build_verification_lookup_json (Malformed.report_of Malformed.null_code_text)
  = Raise AttributeError
  /\ build_verification_lookup_json (Malformed.report_of Malformed.null_code_path)
     = Raise AttributeError
  /\ find_verification_status Scenario.bar_node
       (fst (index_of_report Scenario.bar_report))
       (snd (index_of_report Scenario.bar_report)) = Ok None
  /\ find_verification_status Scenario.bar_node
       (fst (index_of_report Malformed.bar_report_without_path))
       (snd (index_of_report Malformed.bar_report_without_path))
     = Ok (Some "failed").
Proof. repeat split; vm_compute; reflexivity. Qed.

(** C8, amended. On a report whose members are missing or hold a value of
    the declared type, the builder, run on the JSON document itself, raises
    nothing and returns the index of the builder on typed records; a record
    with a missing member is indexed as the record that holds the default
    (the empty string, an empty [code-text]). The resolver raises nothing
    on any node whose members are missing or of the declared type and any
    index; a missing name or path is the empty string, a node without paths
    is resolved by the name-only tier alone, a node without line skips the
    exact-triple tier, and a node without any member on an empty index
    resolves to none. *)
Theorem core_never_raises_on_schema_input :
  (forall verification_data, exists lookup by_name,
      build_verification_lookup verification_data = Ok (lookup, by_name)
      /\ build_verification_lookup_json (json_of_report verification_data)
         = Ok (raw_of_lookup lookup, raw_of_by_name by_name))
  /\ (forall status acc func,
        add_function_json status acc (json_of_function func)
        = add_function_json status acc
            (json_of_function (record_with_defaults func)))
  /\ (forall node lookup by_name, exists r,
        find_verification_status node lookup by_name = Ok r)
  /\ (forall node lookup by_name,
        find_verification_status node lookup by_name
        = find_verification_status (node_with_defaults node) lookup by_name)
  /\ (forall id name line vs extra lookup by_name,
        find_verification_status (mkGraphNode id name None None line vs extra)
          lookup by_name
        = name_only by_name (get_default name ""))
  /\ (forall lookup name path, exact_triple lookup name path None = Ok None)
  /\ (forall lookup,
        find_verification_status (mkGraphNode None None None None None None [])
          lookup [] = Ok None).
Proof.
  split; [|split; [|split; [|split; [|split; [|split]]]]].
  - intros verification_data. do 2 eexists. split; [apply built_index|].
    apply build_verification_lookup_json_typed.
  - intros status [lookup by_name] func. unfold add_function_json.
    rewrite !json_get_display_name, !json_get_code_path, !json_get_code_text.
    destruct func as [[n|] [p|] [t|]]; reflexivity.
  - intros node lookup by_name.
    destruct (find_verification_status_ok node lookup by_name) as [r [H _]].
    exists r. exact H.
  - intros [id [name|] [rel|] [full|] line vs extra] lookup by_name; reflexivity.
  - intros id name line vs extra lookup by_name.
    unfold find_verification_status. cbn.
    destruct (name_only by_name _) as [[s|]|]; reflexivity.
  - reflexivity.
  - reflexivity.
Qed.

(** C9. A record whose [code-path] is missing or empty is indexed under the
    empty path, which is part of every path: every node of that record's
    name with a non-empty candidate path resolves to some outcome, whatever
    the line numbers. *)
Theorem empty_code_path_matches_every_node (verification_data : VerificationData)
    (status : string) (func : FunctionRecord) (node : GraphNode) :
  In (status, func) (records_in_order verification_data) ->
  get_default (func_code_path func) "" = "" ->
  get_default (display_name node) "" = get_default (func_display_name func) "" ->
  get_default (relative_path node) "" <> ""
  \/ get_default (full_path node) "" <> "" ->
  exists lookup by_name s,
    build_verification_lookup verification_data = Ok (lookup, by_name)
    /\ Dict.mem key_eq_dec lookup (Key2 (get_default (display_name node) "") "") = true
    /\ find_verification_status node lookup by_name = Ok (Some s)
    /\ In s outcomes.
Proof.
  intros Hin Hpath Hname Hcand.
  pose proof (built_index verification_data) as Hb.
  destruct (built_index_outcomes _ _ _ Hb) as [Hl _].
  set (lookup := fst (index_of_report verification_data)) in *.
  set (by_name := snd (index_of_report verification_data)) in *.
  set (name := get_default (display_name node) "") in *.
  assert (Hkey : pair_key func = Key2 name "").
  { unfold pair_key, record_name, record_path. rewrite Hpath, <- Hname. reflexivity. }
  assert (Hget : exists s0, Dict.get key_eq_dec lookup (Key2 name "") = Some s0).
  { subst lookup. rewrite built_lookup_pair.
    destruct (List.find (has_key (Key2 name "") pair_key)
                (records_in_order verification_data)) as [sf|] eqn:Ef.
    - exists (fst sf). reflexivity.
    - exfalso. pose proof (find_none _ _ Ef _ Hin) as Hf.
      rewrite has_key_true in Hf by exact Hkey. discriminate. }
  destruct Hget as [s0 Hs0].
  pose proof (get_In _ _ _ _ Hs0) as Hentry.
  assert (Hhit : forall path, path <> "" ->
            exists s, (match_path lookup name (start_line node) path
                       otherwise Ok None) = Ok (Some s)
                      /\ In s outcomes).
  { intros path _.
    destruct (match_path_accepts lookup name path s0 (start_line node) Hentry)
      as [s [Hm [k Hk]]].
    exists s. split; [apply or_else_some; exact Hm | exact (Hl _ _ Hk)]. }
  assert (Hres : exists s, try_paths lookup name (start_line node)
                   [get_default (relative_path node) "";
                    get_default (full_path node) ""] = Ok (Some s)
                 /\ In s outcomes).
  { cbn [try_paths].
    destruct (String.eqb (get_default (relative_path node) "") "") eqn:Er.
    - apply String.eqb_eq in Er.
      destruct Hcand as [Hc|Hc]; [contradiction|].
      apply String.eqb_neq in Hc. rewrite Hc.
      apply Hhit. apply String.eqb_neq. exact Hc.
    - apply String.eqb_neq in Er.
      destruct (match_path_accepts lookup name (get_default (relative_path node) "")
                  s0 (start_line node) Hentry) as [s [Hm [k Hk]]].
      exists s. split; [apply or_else_some; exact Hm | exact (Hl _ _ Hk)]. }
  destruct Hres as [s [Ht Ho]].
  exists lookup, by_name, s. split; [exact Hb|]. split.
  - unfold Dict.mem. rewrite Hs0. reflexivity.
  - split; [|exact Ho]. unfold find_verification_status. fold name.
    apply or_else_some. exact Ht.
Qed.

Lemma empty_code_path_matches_every_node_witness :
  exists lookup by_name s,
    build_verification_lookup Scenario.pathless_report = Ok (lookup, by_name)
    /\ Dict.mem key_eq_dec lookup (Key2 "h" "") = true
    /\ find_verification_status Scenario.pathless_node lookup by_name = Ok (Some s)
    /\ In s outcomes.
Proof.
  apply (empty_code_path_matches_every_node Scenario.pathless_report "failed"
           (mkFunctionRecord (Some "h") None None) Scenario.pathless_node).
  - vm_compute. left. reflexivity.
  - reflexivity.
  - reflexivity.
  - right. vm_compute. discriminate.
Defined.

(** C10. When two records yield the same triple key, the triple key holds
    the status of the record that is processed last, and an unverified
    record can so replace an earlier verified one under the triple key
    while the pair key keeps [verified]. *)
Theorem triple_key_last_writer_wins :
  (forall (verification_data : VerificationData)
          (before between after : list (string * FunctionRecord))
          (s1 s2 : string) (f1 f2 : FunctionRecord),
      records_in_order verification_data
      = before ++ (s1, f1) :: between ++ (s2, f2) :: after ->
      triple_key f2 = triple_key f1 ->
      (forall sf, In sf after -> triple_key (snd sf) <> triple_key f1) ->
      exists lookup by_name,
        build_verification_lookup verification_data = Ok (lookup, by_name)
        /\ Dict.get key_eq_dec lookup (triple_key f1) = Some s2)
  /\ (exists verification_data f1 f2 lookup by_name,
        records_in_order verification_data = [("verified", f1); ("unverified", f2)]
        /\ triple_key f2 = triple_key f1
        /\ build_verification_lookup verification_data = Ok (lookup, by_name)
        /\ Dict.get key_eq_dec lookup (triple_key f1) = Some "unverified"
        /\ Dict.get key_eq_dec lookup (pair_key f1) = Some "verified").
Proof.
  split.
  - intros verification_data before between after s1 s2 f1 f2 Hrec Hsame Hlast.
    do 2 eexists. split; [apply built_index|].
    unfold triple_key at 1. rewrite built_lookup_triple. fold (triple_key f1).
    rewrite Hrec.
    replace (before ++ (s1, f1) :: between ++ (s2, f2) :: after)
      with ((before ++ (s1, f1) :: between) ++ [(s2, f2)] ++ after)
      by (rewrite <- app_assoc; reflexivity).
    rewrite !rev_app_distr, <- !app_assoc, find_app, find_none_all.
    + cbn [rev app List.find]. rewrite has_key_true by exact Hsame. reflexivity.
    + intros sf Hin. apply has_key_false. apply Hlast.
      apply in_rev. exact Hin.
  - exists Scenario.clash_report.
    exists (mkFunctionRecord (Some "g") (Some "src/g.rs")
              (Some (mkCodeText (Some 3%Z) (Some 9%Z)))).
    exists (mkFunctionRecord (Some "g") (Some "p/src/g.rs")
              (Some (mkCodeText (Some 3%Z) (Some 9%Z)))).
    do 2 eexists. split; [vm_compute; reflexivity|].
    split; [vm_compute; reflexivity|].
    split; [apply built_index|].
    split; vm_compute; reflexivity.
Qed.

Lemma triple_key_last_writer_wins_witness :
  exists lookup by_name,
    build_verification_lookup Scenario.clash_report = Ok (lookup, by_name)
    /\ Dict.get key_eq_dec lookup (Key3 "g" "src/g.rs" (Some 3%Z))
       = Some "unverified".
Proof.
  apply (proj1 triple_key_last_writer_wins Scenario.clash_report [] [] []
           "verified" "unverified"
           (mkFunctionRecord (Some "g") (Some "src/g.rs")
              (Some (mkCodeText (Some 3%Z) (Some 9%Z))))
           (mkFunctionRecord (Some "g") (Some "p/src/g.rs")
              (Some (mkCodeText (Some 3%Z) (Some 9%Z))))).
  - vm_compute. reflexivity.
  - vm_compute. reflexivity.
  - intros sf [].
Defined.

End Claims.

(* ================================================================== *)
(** * Further properties of the path normalizer *)

Section NormalizerMore.
Import PyStr PyStrFacts.

Lemma append_assoc (a b c : string) : ((a ++ b) ++ c = a ++ (b ++ c))%string.
Proof. induction a as [|x a IH]; [reflexivity|]. cbn. rewrite IH. reflexivity. Qed.

Lemma drop_is_suffix (n : nat) (s : string) :
  exists pre, s = (pre ++ drop n s)%string.
Proof.
  revert s. induction n as [|n IH]; intros s.
  - exists "". reflexivity.
  - destruct s as [|c s]; [exists ""; reflexivity|].
    destruct (IH s) as [pre Hpre]. exists (String c pre).
    cbn [drop append]. rewrite <- Hpre. reflexivity.
Qed.

Lemma drop_length_app (a b : string) : drop (String.length a) (a ++ b) = b.
Proof. induction a as [|x a IH]; [reflexivity | exact IH]. Qed.

Lemma join_from_src_is_suffix (parts : list string) (r : string) :
  join_from_src parts = Some r ->
  exists pre, join "/" parts = (pre ++ r)%string.
Proof.
  induction parts as [|part parts IH]; intros H; [discriminate|].
  cbn [join_from_src] in H. destruct (String.eqb part "src").
  - injection H as <-. exists "". reflexivity.
  - destruct (IH H) as [pre Hpre]. destruct parts as [|p ps]; [discriminate|].
    exists (part ++ "/" ++ pre)%string.
    change (join "/" (part :: p :: ps)) with (part ++ "/" ++ join "/" (p :: ps))%string.
    rewrite Hpre, !append_assoc. reflexivity.
Qed.

Lemma replace_length (s : string) :
  String.length (replace "file://" "" s) <= String.length s.
Proof. unfold replace. apply replace_scan_length. Qed.

(** An occurrence of [/src/] cannot begin inside a prefix that holds no
    [/src]. *)
Lemma startswith_src_straddle (c : ascii) (p rest : string) :
  startswith "/src" (String c p) = false ->
  startswith "/src/" (String c (p ++ "/src/" ++ rest)) = false.
Proof.
  cbn [startswith]. destruct (Ascii.eqb "/" c); [|reflexivity].
  destruct p as [|c1 p]; [reflexivity|]. cbn [startswith append].
  destruct (Ascii.eqb "s" c1); [|reflexivity].
  destruct p as [|c2 p]; [reflexivity|]. cbn [startswith append].
  destruct (Ascii.eqb "r" c2); [|reflexivity].
  destruct p as [|c3 p]; [reflexivity|]. cbn [startswith append].
  destruct (Ascii.eqb "c" c3); [|reflexivity].
  destruct p; discriminate.
Qed.

Lemma index_of_src_after_prefix (prefix rest : string) :
  contains "/src" prefix = false ->
  index_of "/src/" (prefix ++ "/src/" ++ rest) = Some (String.length prefix).
Proof.
  unfold contains. induction prefix as [|c p IH]; intros H.
  - reflexivity.
  - destruct (index_of "/src" (String c p)) eqn:E; [discriminate|].
    apply index_of_cons_none in E. destruct E as [Hs Hi].
    change ((String c p ++ "/src/" ++ rest)%string)
      with (String c (p ++ "/src/" ++ rest)).
    cbn [index_of]. rewrite (startswith_src_straddle c p rest Hs).
    rewrite IH by (rewrite Hi; reflexivity). reflexivity.
Qed.

End NormalizerMore.

(* ================================================================== *)
(** * Further facts about the index and the resolver *)

Section IndexMore.
Import DictFacts.

Lemma In_set_key {K V : Type} (eq_dec : forall x y : K, {x = y} + {x <> y})
    (d : list (K * V)) (k k' : K) (v v' : V) :
  In (k', v') (Dict.set eq_dec d k v) -> (k' = k /\ v' = v) \/ In (k', v') d.
Proof.
  induction d as [|[k0 v0] d IH]; cbn.
  - intros [H|[]]. injection H as <- <-. left. split; reflexivity.
  - destruct (eq_dec k k0) as [E|E]; cbn.
    + intros [H|H].
      * injection H as <- <-. left. split; [symmetry; exact E | reflexivity].
      * right. right. exact H.
    + intros [H|H]; [right; left; exact H|].
      destruct (IH H) as [?|?]; [left | right; right]; assumption.
Qed.

Lemma find_is_some {A : Type} (f : A -> bool) (l : list A) (x : A) :
  In x l -> f x = true -> exists y, List.find f l = Some y.
Proof.
  intros Hin Hf. destruct (List.find f l) as [y|] eqn:E; [exists y; reflexivity|].
  rewrite (find_none _ _ E _ Hin) in Hf. discriminate.
Qed.

Lemma has_key_iff (k : key) (of_record : FunctionRecord -> key)
    (sf : string * FunctionRecord) :
  has_key k of_record sf = true <-> of_record (snd sf) = k.
Proof.
  unfold has_key. destruct (key_eq_dec (of_record (snd sf)) k); split;
    congruence.
Qed.

(** Every entry of the index stems from a record: the key is the triple or
    the pair key of a record of the entry's status. *)
Lemma lookup_step_provenance (Q : key -> string -> Prop) (lookup : lookup_t)
    (sf : string * FunctionRecord) :
  (forall k s, In (k, s) lookup -> Q k s) ->
  Q (triple_key (snd sf)) (fst sf) -> Q (pair_key (snd sf)) (fst sf) ->
  forall k s, In (k, s) (lookup_step lookup sf) -> Q k s.
Proof.
  intros Hl Ht Hp k s. unfold lookup_step.
  destruct (Dict.mem key_eq_dec _ (pair_key (snd sf))); intros H.
  - apply In_set_key in H. destruct H as [[-> ->]|H]; [exact Ht | exact (Hl _ _ H)].
  - apply In_set_key in H. destruct H as [[-> ->]|H]; [exact Hp|].
    apply In_set_key in H. destruct H as [[-> ->]|H]; [exact Ht | exact (Hl _ _ H)].
Qed.

Lemma fold_lookup_provenance (Q : key -> string -> Prop)
    (records : list (string * FunctionRecord)) (lookup : lookup_t) :
  (forall k s, In (k, s) lookup -> Q k s) ->
  (forall sf, In sf records ->
     Q (triple_key (snd sf)) (fst sf) /\ Q (pair_key (snd sf)) (fst sf)) ->
  forall k s, In (k, s) (fold_left lookup_step records lookup) -> Q k s.
Proof.
  revert lookup. induction records as [|sf records IH]; intros lookup Hl Hr.
  - exact Hl.
  - cbn [fold_left]. apply IH.
    + apply lookup_step_provenance; [exact Hl | |]; apply (Hr sf); left; reflexivity.
    + intros sf' H. apply Hr. right. exact H.
Qed.

Lemma built_lookup_provenance (verification_data : VerificationData)
    (k : key) (s : string) :
  In (k, s) (fst (index_of_report verification_data)) ->
  exists f, In (s, f) (records_in_order verification_data)
            /\ (k = triple_key f \/ k = pair_key f).
Proof.
  unfold index_of_report. rewrite fold_index_step_fst. revert k s.
  apply (fold_lookup_provenance
           (fun k s => exists f, In (s, f) (records_in_order verification_data)
                                 /\ (k = triple_key f \/ k = pair_key f))).
  - intros k' s' [].
  - intros [s' f] Hin. cbn [fst snd]. split; exists f; auto.
Qed.

Lemma key_name_of_record (f : FunctionRecord) (k : key) :
  k = triple_key f \/ k = pair_key f -> key_name k = record_name f.
Proof. intros [->| ->]; reflexivity. Qed.

(** The list under a name holds the records of that name, in processing
    order. *)
Lemma by_name_step_named (by_name : by_name_t) (sf : string * FunctionRecord)
    (name : string) :
  records_named (by_name_step by_name sf) name
  = (records_named by_name name
     ++ if named name sf then [match_of sf] else [])%list.
Proof.
  unfold records_named, by_name_step, named.
  fold (match_of sf).
  destruct (String.eqb (record_name (snd sf)) name) eqn:E.
  - apply String.eqb_eq in E. rewrite <- E, get_set_same. reflexivity.
  - apply String.eqb_neq in E. rewrite get_set_other by exact E.
    rewrite app_nil_r. reflexivity.
Qed.

Lemma fold_by_name_named (records : list (string * FunctionRecord))
    (by_name : by_name_t) (name : string) :
  records_named (fold_left by_name_step records by_name) name
  = (records_named by_name name ++ map match_of (filter (named name) records))%list.
Proof.
  revert by_name. induction records as [|sf records IH]; intros by_name.
  - cbn. rewrite app_nil_r. reflexivity.
  - cbn [fold_left filter]. rewrite IH, by_name_step_named.
    destruct (named name sf); cbn [map]; rewrite <- app_assoc; reflexivity.
Qed.

Lemma built_by_name_named (verification_data : VerificationData) (name : string) :
  records_named (snd (index_of_report verification_data)) name
  = map match_of (filter (named name) (records_in_order verification_data)).
Proof.
  unfold index_of_report. rewrite fold_index_step_snd, fold_by_name_named.
  reflexivity.
Qed.

End IndexMore.

Section ResolverMore.
Import DictFacts.

(** A status returned by the scan belongs to an entry of the node's name
    whose path overlaps the node's path. *)
Lemma partial_path_match_named (name path : string) (start_line : option Z)
    (items : list (key * string)) (s : string) :
  partial_path_match name path start_line items = Ok (Some s) ->
  exists k, In (k, s) items /\ key_name k = name
            /\ overlap (key_path k) path = true.
Proof.
  induction items as [|[k status] items IH]; [discriminate|].
  cbn [partial_path_match].
  assert (Hrec : partial_path_match name path start_line items = Ok (Some s) ->
                 exists k', In (k', s) ((k, status) :: items)
                            /\ key_name k' = name
                            /\ overlap (key_path k') path = true).
  { intros H. destruct (IH H) as [k' [Hin Hk]]. exists k'. split; [right|]; assumption. }
  destruct (String.eqb (key_name k) name) eqn:En; [|exact Hrec].
  fold (overlap (key_path k) path).
  destruct (overlap (key_path k) path) eqn:Eo; [|exact Hrec].
  apply String.eqb_eq in En.
  assert (Hhit : Ok (Some status) = Ok (Some s) ->
                 exists k', In (k', s) ((k, status) :: items)
                            /\ key_name k' = name
                            /\ overlap (key_path k') path = true).
  { intros H. injection H as <-. exists k. split; [left; reflexivity | auto]. }
  destruct k as [n p l|n p]; cbn [key_rest is_empty negb andb].
  - destruct (is_none start_line); cbn [negb]; [exact Hrec|].
    cbn [list_getitem nth_error bind].
    destruct (line_eqb l start_line); [exact Hhit | exact Hrec].
  - exact Hhit.
Qed.

(** Without an entry of the node's name the scan finds nothing. *)
Lemma match_path_named (lookup : lookup_t) (name : string)
    (start_line : option Z) (path s : string) :
  match_path lookup name start_line path = Ok (Some s) ->
  exists k, In (k, s) lookup /\ key_name k = name.
Proof.
  unfold match_path. rewrite exact_triple_get, exact_pair_get.
  assert (Hp : partial_path_match name (normalize_path path) start_line lookup
               = Ok (Some s) -> exists k, In (k, s) lookup /\ key_name k = name).
  { intros H. destruct (partial_path_match_named _ _ _ _ _ H) as [k [Hin [Hn _]]].
    exists k. auto. }
  assert (H2 : (Ok (Dict.get key_eq_dec lookup (Key2 name (normalize_path path)))
                otherwise partial_path_match name (normalize_path path)
                            start_line lookup) = Ok (Some s) ->
               exists k, In (k, s) lookup /\ key_name k = name).
  { destruct (Dict.get key_eq_dec lookup (Key2 name (normalize_path path)))
      as [s2|] eqn:E2; cbn [or_else bind].
    - intros H. injection H as <-. eexists. split; [exact (get_In _ _ _ _ E2)|].
      reflexivity.
    - exact Hp. }
  destruct start_line as [line|]; [|exact H2].
  destruct (Dict.get key_eq_dec lookup (Key3 name (normalize_path path) (Some line)))
    as [s3|] eqn:E3; cbn [or_else bind] in *.
  - intros H. injection H as <-. eexists. split; [exact (get_In _ _ _ _ E3)|].
    reflexivity.
  - exact H2.
Qed.

Lemma try_paths_named (lookup : lookup_t) (name : string)
    (start_line : option Z) (paths : list string) (s : string) :
  try_paths lookup name start_line paths = Ok (Some s) ->
  exists k, In (k, s) lookup /\ key_name k = name.
Proof.
  induction paths as [|path paths IH]; [discriminate|].
  cbn [try_paths]. destruct (String.eqb path ""); [exact IH|].
  destruct (match_path_ok lookup name start_line path) as [[s'|] [Hm _]];
    rewrite Hm; cbn [or_else bind].
  - intros H. injection H as <-. exact (match_path_named _ _ _ _ _ Hm).
  - exact IH.
Qed.

(** The loop over the candidate paths starts with the first candidate that
    is not empty. *)
Lemma try_paths_first_candidate (node : GraphNode) (lookup : lookup_t)
    (name p s : string) :
  first_candidate node = Some p ->
  match_path lookup name (start_line node) p = Ok (Some s) ->
  try_paths lookup name (start_line node)
    [get_default (relative_path node) ""; get_default (full_path node) ""]
  = Ok (Some s).
Proof.
  unfold first_candidate. cbn [try_paths]. intros Hc Hm.
  destruct (String.eqb (get_default (relative_path node) "") "").
  - destruct (String.eqb (get_default (full_path node) "") ""); [discriminate|].
    injection Hc as ->. apply or_else_some. exact Hm.
  - injection Hc as ->. apply or_else_some. exact Hm.
Qed.

Lemma find_of_try_paths (node : GraphNode) (lookup : lookup_t)
    (by_name : by_name_t) (s : string) :
  try_paths lookup (get_default (display_name node) "") (start_line node)
    [get_default (relative_path node) ""; get_default (full_path node) ""]
  = Ok (Some s) ->
  find_verification_status node lookup by_name = Ok (Some s).
Proof. intros H. unfold find_verification_status. apply or_else_some. exact H. Qed.

(** A line-free entry of the node's name with an overlapping path makes
    the path tiers answer. *)
Lemma match_path_overlap (lookup : lookup_t) (name path lpath status : string)
    (start_line : option Z) :
  In (Key2 name lpath, status) lookup ->
  overlap lpath (normalize_path path) = true ->
  exists s, match_path lookup name start_line path = Ok (Some s).
Proof.
  intros Hin Hov.
  destruct (match_path_ok lookup name start_line path) as [[s|] [Hm _]];
    [exists s; exact Hm|].
  exfalso. unfold match_path in Hm.
  rewrite exact_triple_get, exact_pair_get in Hm.
  destruct (partial_path_match_accepts name (normalize_path path) lpath status
              start_line lookup Hin Hov) as [s Hs].
  rewrite Hs in Hm.
  destruct start_line;
    repeat match type of Hm with
           | context [Dict.get ?e ?d ?k] => destruct (Dict.get e d k)
           end; discriminate.
Qed.

(** The name-only tier on a unanimous, non-empty list. *)
Lemma name_only_unanimous (by_name : by_name_t) (name s : string) :
  records_named by_name name <> [] ->
  (forall m, In m (records_named by_name name) -> m_status m = s) ->
  name_only by_name name = Ok (Some s).
Proof.
  unfold records_named, name_only, Dict.mem, Dict.getitem.
  destruct (Dict.get string_dec by_name name) as [matches|];
    cbn [get_default bind]; [|contradiction].
  intros Hne Hs.
  rewrite (nodup_unanimous (map m_status matches) s).
  - destruct matches as [|m ms]; [contradiction|].
    cbn. rewrite (Hs m (or_introl eq_refl)). reflexivity.
  - destruct matches; [contradiction | discriminate].
  - intros x Hx. apply in_map_iff in Hx. destruct Hx as [m [<- Hm]].
    exact (Hs m Hm).
Qed.

(** On a built index a returned status is the category of a record that
    bears the node's name. *)
Lemma built_status_provenance (verification_data : VerificationData)
    (node : GraphNode) (s : string) :
  find_verification_status node (fst (index_of_report verification_data))
    (snd (index_of_report verification_data)) = Ok (Some s) ->
  exists f, In (s, f) (records_in_order verification_data)
            /\ record_name f = get_default (display_name node) "".
Proof.
  intros H. unfold find_verification_status in H.
  destruct (try_paths_ok (fst (index_of_report verification_data))
              (get_default (display_name node) "") (start_line node)
              [get_default (relative_path node) ""; get_default (full_path node) ""])
    as [[s'|] [Ht _]]; rewrite Ht in H; cbn [or_else bind] in H.
  - injection H as <-.
    destruct (try_paths_named _ _ _ _ _ Ht) as [k [Hin Hk]].
    destruct (built_lookup_provenance _ _ _ Hin) as [f [Hf Hkey]].
    exists f. split; [exact Hf|]. rewrite <- Hk.
    symmetry. exact (key_name_of_record f k Hkey).
  - destruct (name_only_ok (snd (index_of_report verification_data))
                (get_default (display_name node) "")) as [r [Hn Hr]].
    rewrite Hn in H. injection H as ->.
    destruct (Hr s eq_refl) as [m [Hm Hs]].
    rewrite built_by_name_named in Hm. apply in_map_iff in Hm.
    destruct Hm as [[s' f] [<- Hsf]]. apply filter_In in Hsf.
    destruct Hsf as [Hin Hnamed]. cbn in Hs. subst s'.
    exists f. split; [exact Hin|]. apply String.eqb_eq. exact Hnamed.
Qed.

End ResolverMore.

Section EnrichmentMore.
Import DictFacts.

(** The resolver reads the name, the paths and the line of a node only. *)
Lemma find_ignores_status (node : GraphNode) (s : string) (lookup : lookup_t)
    (by_name : by_name_t) :
  find_verification_status (set_verification_status node s) lookup by_name
  = find_verification_status node lookup by_name.
Proof. reflexivity. Qed.

Lemma process_node_again (lookup : lookup_t) (by_name : by_name_t)
    (stats stats' : stats_t) (node node' : GraphNode) :
  process_node lookup by_name stats node = Ok (node', stats') ->
  process_node lookup by_name stats node' = Ok (node', stats').
Proof.
  unfold process_node.
  destruct (find_verification_status node lookup by_name) as [r|e] eqn:Ef;
    cbn [bind]; [|discriminate].
  destruct (truthy r) eqn:Et.
  - destruct r as [s|]; [|discriminate].
    destruct (increment stats s) as [st|e] eqn:Ei; cbn [bind]; [|discriminate].
    intros H. injection H as <- <-.
    rewrite find_ignores_status, Ef. cbn [bind]. rewrite Et, Ei. reflexivity.
  - destruct (increment stats "unknown") as [st|e] eqn:Ei; cbn [bind];
      [|discriminate].
    intros H. injection H as <- <-.
    rewrite Ef. cbn [bind]. rewrite Et. reflexivity.
Qed.

Lemma process_nodes_again (lookup : lookup_t) (by_name : by_name_t)
    (node_list node_list' : list GraphNode) (stats stats' : stats_t) :
  process_nodes lookup by_name stats node_list = Ok (node_list', stats') ->
  process_nodes lookup by_name stats node_list' = Ok (node_list', stats').
Proof.
  revert node_list' stats stats'.
  induction node_list as [|node node_list IH]; intros node_list' stats stats'.
  - cbn. intros H. injection H as <- <-. reflexivity.
  - cbn [process_nodes].
    destruct (process_node lookup by_name stats node) as [[n1 st1]|e] eqn:En;
      cbn [bind]; [|discriminate].
    destruct (process_nodes lookup by_name st1 node_list) as [[done st2]|e] eqn:Er;
      cbn [bind]; [|discriminate].
    intros H. injection H as <- <-.
    cbn [process_nodes]. rewrite (process_node_again _ _ _ _ _ _ En). cbn [bind].
    rewrite (IH _ _ _ Er). reflexivity.
Qed.

Lemma resolved_outcome (lookup : lookup_t) (by_name : by_name_t)
    (node : GraphNode) (s : string) :
  values_in (fun s => In s outcomes) lookup ->
  statuses_in (fun s => In s outcomes) by_name ->
  find_verification_status node lookup by_name = Ok (Some s) ->
  In s outcomes.
Proof.
  intros Hl Hb Hf.
  destruct (find_verification_status_ok node lookup by_name) as [r [Hr Hs]].
  rewrite Hf in Hr. injection Hr as <-.
  destruct (Hs s eq_refl) as [[k Hk]|[m [Hm <-]]]; [exact (Hl _ _ Hk)|].
  unfold records_named in Hm.
  destruct (Dict.get string_dec by_name (get_default (display_name node) ""))
    as [l|] eqn:E; cbn [get_default] in Hm; [|contradiction].
  exact (Hb _ _ _ (get_In _ _ _ _ E) Hm).
Qed.

Lemma counter_increment (stats stats' : stats_t) (k k' : string) :
  increment stats k = Ok stats' ->
  counter stats' k' = (counter stats k' + if String.eqb k k' then 1 else 0)%Z.
Proof.
  unfold increment, Dict.getitem, counter.
  destruct (Dict.get string_dec stats k) as [n|] eqn:E; cbn [bind]; [|discriminate].
  intros H. injection H as <-.
  destruct (String.eqb k k') eqn:Ek.
  - apply String.eqb_eq in Ek. subst k'. rewrite get_set_same, E. reflexivity.
  - apply String.eqb_neq in Ek. rewrite get_set_other by exact Ek. lia.
Qed.

Lemma outcome_not_unknown (s : string) :
  In s outcomes -> String.eqb s "unknown" = false /\ String.eqb "unknown" s = false.
Proof. intros [<-|[<-|[<-|[]]]]; split; reflexivity. Qed.

Lemma count_resolved_cons (lookup : lookup_t) (by_name : by_name_t)
    (r : option string) (node : GraphNode) (node_list : list GraphNode) :
  count_resolved lookup by_name r (node :: node_list)
  = ((if resolves_to lookup by_name r node then 1 else 0)
     + count_resolved lookup by_name r node_list)%Z.
Proof.
  unfold count_resolved. cbn [filter].
  destruct (resolves_to lookup by_name r node); cbn [List.length]; lia.
Qed.

(** One node moves exactly the counter of its answer. *)
Lemma process_node_counts (lookup : lookup_t) (by_name : by_name_t)
    (stats stats' : stats_t) (node node' : GraphNode) :
  values_in (fun s => In s outcomes) lookup ->
  statuses_in (fun s => In s outcomes) by_name ->
  process_node lookup by_name stats node = Ok (node', stats') ->
  (forall s, In s outcomes ->
     counter stats' s
     = (counter stats s
        + if resolves_to lookup by_name (Some s) node then 1 else 0)%Z)
  /\ counter stats' "unknown"
     = (counter stats "unknown"
        + if resolves_to lookup by_name None node then 1 else 0)%Z.
Proof.
  intros Hl Hb. unfold process_node, resolves_to.
  destruct (find_verification_status node lookup by_name) as [r|e] eqn:Ef;
    cbn [bind]; [|discriminate].
  destruct r as [s0|]; cbn [truthy status_eqb].
  - pose proof (resolved_outcome _ _ _ _ Hl Hb Ef) as Ho.
    rewrite (outcome_truthy s0 Ho). cbn [negb].
    destruct (increment stats s0) as [st|e] eqn:Ei; cbn [bind]; [|discriminate].
    intros H. injection H as _ <-. split.
    + intros s _. apply counter_increment. exact Ei.
    + rewrite (counter_increment _ _ _ "unknown" Ei).
      destruct (outcome_not_unknown s0 Ho) as [-> _]. reflexivity.
  - destruct (increment stats "unknown") as [st|e] eqn:Ei; cbn [bind];
      [|discriminate].
    intros H. injection H as _ <-. split.
    + intros s Hs. rewrite (counter_increment _ _ _ s Ei).
      destruct (outcome_not_unknown s Hs) as [_ ->]. reflexivity.
    + rewrite (counter_increment _ _ _ "unknown" Ei). reflexivity.
Qed.

Lemma process_nodes_counts (lookup : lookup_t) (by_name : by_name_t)
    (node_list node_list' : list GraphNode) (stats stats' : stats_t) :
  values_in (fun s => In s outcomes) lookup ->
  statuses_in (fun s => In s outcomes) by_name ->
  process_nodes lookup by_name stats node_list = Ok (node_list', stats') ->
  (forall s, In s outcomes ->
     counter stats' s
     = (counter stats s + count_resolved lookup by_name (Some s) node_list)%Z)
  /\ counter stats' "unknown"
     = (counter stats "unknown" + count_resolved lookup by_name None node_list)%Z.
Proof.
  intros Hl Hb. revert node_list' stats stats'.
  induction node_list as [|node node_list IH]; intros node_list' stats stats'.
  - cbn [process_nodes]. intros H. injection H as _ <-.
    unfold count_resolved. cbn. split; intros; lia.
  - cbn [process_nodes].
    destruct (process_node lookup by_name stats node) as [[n1 st1]|e] eqn:En;
      cbn [bind]; [|discriminate].
    destruct (process_nodes lookup by_name st1 node_list) as [[done st2]|e] eqn:Er;
      cbn [bind]; [|discriminate].
    intros H. injection H as _ <-.
    destruct (process_node_counts _ _ _ _ _ _ Hl Hb En) as [H1 H1u].
    destruct (IH _ _ _ Er) as [H2 H2u].
    split.
    + intros s Hs. rewrite (H2 s Hs), (H1 s Hs), count_resolved_cons. lia.
    + rewrite H2u, H1u, count_resolved_cons. lia.
Qed.

(** On an index of outcomes every node has exactly one of the four
    answers. *)
Lemma count_resolved_partition (lookup : lookup_t) (by_name : by_name_t)
    (node_list : list GraphNode) :
  values_in (fun s => In s outcomes) lookup ->
  statuses_in (fun s => In s outcomes) by_name ->
  (count_resolved lookup by_name (Some "verified") node_list
   + count_resolved lookup by_name (Some "failed") node_list
   + count_resolved lookup by_name (Some "unverified") node_list
   + count_resolved lookup by_name None node_list)%Z
  = Z.of_nat (List.length node_list).
Proof.
  intros Hl Hb. induction node_list as [|node node_list IH].
  - reflexivity.
  - rewrite !count_resolved_cons. cbn [List.length]. rewrite Nat2Z.inj_succ.
    rewrite <- IH. clear IH.
    generalize (count_resolved lookup by_name (Some "verified") node_list),
               (count_resolved lookup by_name (Some "failed") node_list),
               (count_resolved lookup by_name (Some "unverified") node_list),
               (count_resolved lookup by_name None node_list).
    intros a b c d. unfold resolves_to.
    destruct (find_verification_status_ok node lookup by_name) as [[s|] [Hf _]];
      rewrite Hf.
    + destruct (resolved_outcome _ _ _ _ Hl Hb Hf) as [<-|[<-|[<-|[]]]];
        cbn [status_eqb String.eqb Ascii.eqb Bool.eqb]; lia.
    + cbn [status_eqb]. lia.
Qed.

End EnrichmentMore.

(* ================================================================== *)
(** * Further properties *)

Section NormalizerProperties.
Import PyStr PyStrFacts.

(** X1. A leading [file://] scheme does not change the normalized path. *)
Theorem normalize_path_ignores_scheme (p : string) :
  normalize_path ("file://" ++ p) = normalize_path p.
Proof.
  unfold normalize_path.
  assert (H : replace "file://" "" ("file://" ++ p) = replace "file://" "" p)
    by reflexivity.
  rewrite H. reflexivity.
Qed.

(** X2. The normalized path is a suffix of the path without its schemes:
    the normalizer only cuts at the front, and the result is never longer
    than the input. *)
Theorem normalize_path_is_suffix (p : string) :
  (exists pre, replace "file://" "" p = (pre ++ normalize_path p)%string)
  /\ String.length (normalize_path p) <= String.length p.
Proof.
  split.
  - unfold normalize_path. set (q := replace "file://" "" p).
    destruct (contains "/src/" q).
    + unfold slice_from. destruct (0 <=? find "/src/" q + 1)%Z; apply drop_is_suffix.
    + destruct (join_from_src (split "/" q)) as [r|] eqn:Ej.
      * destruct (join_from_src_is_suffix _ _ Ej) as [pre Hpre].
        rewrite (join_split "/" q) in Hpre. exists pre. exact Hpre.
      * exists "". reflexivity.
  - pose proof (normalize_path_length p). pose proof (replace_length p). lia.
Qed.

(** X3. Whatever stands before the first [/src/] segment is dropped: a path
    without scheme whose prefix holds no [/src] normalizes to the text from
    [src/] on, so two paths that differ only in that prefix normalize to
    the same key. *)
Theorem normalize_path_drops_prefix (prefix rest : string) :
  contains "/src" prefix = false ->
  contains "file://" (prefix ++ "/src/" ++ rest) = false ->
  normalize_path (prefix ++ "/src/" ++ rest) = ("src/" ++ rest)%string.
Proof.
  intros Hp Hf. unfold normalize_path.
  rewrite (replace_absent "file://" "" _) by (discriminate || exact Hf).
  unfold contains, find. rewrite (index_of_src_after_prefix prefix rest Hp).
  unfold slice_from.
  replace (0 <=? Z.of_nat (String.length prefix) + 1)%Z with true
    by (symmetry; apply Z.leb_le; lia).
  replace (Z.to_nat (Z.of_nat (String.length prefix) + 1))
    with (S (String.length prefix)) by lia.
  rewrite drop_succ, drop_length_app. reflexivity.
Qed.

Lemma normalize_path_drops_prefix_witness :
  normalize_path ("curve25519-dalek/curve25519-dalek" ++ "/src/" ++ "lemmas/x.rs")
  = ("src/" ++ "lemmas/x.rs")%string.
Proof.
  apply normalize_path_drops_prefix; reflexivity.
Defined.

(** X4. The fixed points of the normalizer are the paths without [file://]
    and without [/src/] that either have no segment [src] or begin with
    their [src] segment. *)
Theorem normalize_path_fixed_points (r : string) :
  normalize_path r = r
  <-> contains "file://" r = false
      /\ contains "/src/" r = false
      /\ (join_from_src (split "/" r) = None
          \/ r = "src"
          \/ exists t, r = ("src/" ++ t)%string).
Proof.
  split.
  - intros Hfix. destruct (normalize_path_fixed_only_if_clean r Hfix) as [Hf Hs].
    split; [exact Hf|]. split; [exact Hs|].
    pose proof (normalize_path_shape r) as Hsh. rewrite Hfix in Hsh.
    destruct Hsh as [Hsome | Hnone]; [|left; exact Hnone].
    right. exact (join_from_src_anchored _ _ Hsome).
  - intros [Hf [Hs Hsh]]. apply normalize_path_fixed; [exact Hf | exact Hs |].
    destruct Hsh as [Hnone | Hanch]; [right; exact Hnone|].
    left. apply join_from_src_of_anchored. exact Hanch.
Qed.

End NormalizerProperties.

Section IndexProperties.
Import DictFacts.

(** X5. The keys of the built [lookup] are the triple keys and the pair
    keys of the processed records: every record is reachable under both of
    its keys, and no other key is stored. *)
Theorem built_lookup_keys (verification_data : VerificationData) :
  exists lookup by_name,
    build_verification_lookup verification_data = Ok (lookup, by_name)
    /\ forall k,
         Dict.mem key_eq_dec lookup k = true
         <-> exists s f, In (s, f) (records_in_order verification_data)
                         /\ (triple_key f = k \/ pair_key f = k).
Proof.
  do 2 eexists. split; [apply built_index|]. intros k. split.
  - intros Hm. apply mem_get in Hm. destruct Hm as [s Hs].
    destruct (built_lookup_provenance _ _ _ (get_In _ _ _ _ Hs)) as [f [Hf Hk]].
    exists s, f. split; [exact Hf|]. destruct Hk; [left | right]; congruence.
  - intros [s [f [Hin Hk]]]. apply mem_get.
    destruct Hk as [<- | <-].
    + unfold triple_key. rewrite built_lookup_triple. fold (triple_key f).
      destruct (find_is_some (has_key (triple_key f) triple_key)
                  (rev (records_in_order verification_data)) (s, f))
        as [y Hy].
      * apply -> in_rev. exact Hin.
      * apply has_key_true. reflexivity.
      * rewrite Hy. eexists. reflexivity.
    + unfold pair_key. rewrite built_lookup_pair. fold (pair_key f).
      destruct (find_is_some (has_key (pair_key f) pair_key)
                  (records_in_order verification_data) (s, f) Hin)
        as [y Hy].
      * apply has_key_true. reflexivity.
      * rewrite Hy. eexists. reflexivity.
Qed.

(** X6. The built [by_name] loses no record: the list under a name holds
    one entry for every processed record of that name, duplicates included,
    in processing order. *)
Theorem built_by_name_keeps_all_records (verification_data : VerificationData) :
  exists lookup by_name,
    build_verification_lookup verification_data = Ok (lookup, by_name)
    /\ forall name,
         records_named by_name name
         = map match_of (filter (named name) (records_in_order verification_data)).
Proof.
  do 2 eexists. split; [apply built_index|]. apply built_by_name_named.
Qed.

(** X7. The resolver never borrows a status from another name: on a built
    index, a returned status is the category of some record whose
    [display-name] is the node's [display_name]. *)
Theorem resolved_status_stems_from_named_record
    (verification_data : VerificationData) (node : GraphNode)
    (lookup : lookup_t) (by_name : by_name_t) (s : string) :
  build_verification_lookup verification_data = Ok (lookup, by_name) ->
  find_verification_status node lookup by_name = Ok (Some s) ->
  exists f, In (s, f) (records_in_order verification_data)
            /\ record_name f = get_default (display_name node) "".
Proof.
  rewrite built_index. intros Hb. injection Hb as <- <-.
  apply built_status_provenance.
Qed.

Lemma resolved_status_stems_from_named_record_witness :
  exists f, In ("verified", f) (records_in_order Scenario.foo_report)
            /\ record_name f = "foo".
Proof.
  apply (resolved_status_stems_from_named_record Scenario.foo_report
           Scenario.foo_node
           (fst (index_of_report Scenario.foo_report))
           (snd (index_of_report Scenario.foo_report)) "verified").
  - vm_compute. reflexivity.
  - vm_compute. reflexivity.
Defined.

(** X8. A node whose name no record of the report bears resolves to none,
    whatever its paths and line. *)
Theorem unknown_name_resolves_to_none (verification_data : VerificationData)
    (node : GraphNode) :
  (forall s f, In (s, f) (records_in_order verification_data) ->
               record_name f <> get_default (display_name node) "") ->
  exists lookup by_name,
    build_verification_lookup verification_data = Ok (lookup, by_name)
    /\ find_verification_status node lookup by_name = Ok None.
Proof.
  intros Hnone. do 2 eexists. split; [apply built_index|].
  destruct (find_verification_status_ok node
              (fst (index_of_report verification_data))
              (snd (index_of_report verification_data))) as [[s|] [Hf _]];
    [|exact Hf].
  exfalso. destruct (built_status_provenance _ _ _ Hf) as [f [Hin Hname]].
  exact (Hnone s f Hin Hname).
Qed.

Lemma unknown_name_resolves_to_none_witness :
  exists lookup by_name,
    build_verification_lookup Scenario.add_report = Ok (lookup, by_name)
    /\ find_verification_status Scenario.foo_node lookup by_name = Ok None.
Proof.
  apply (unknown_name_resolves_to_none Scenario.add_report Scenario.foo_node).
  vm_compute. intros s f [H|[]]. injection H as _ <-. discriminate.
Defined.

(** X9. When the report holds a record of the node's name and all records
    of that name are in one category, the node resolves to that category,
    whatever its paths and line. *)
Theorem unanimous_name_resolves (verification_data : VerificationData)
    (node : GraphNode) (s : string) :
  (exists f, In (s, f) (records_in_order verification_data)
             /\ record_name f = get_default (display_name node) "") ->
  (forall s' f, In (s', f) (records_in_order verification_data) ->
                record_name f = get_default (display_name node) "" -> s' = s) ->
  exists lookup by_name,
    build_verification_lookup verification_data = Ok (lookup, by_name)
    /\ find_verification_status node lookup by_name = Ok (Some s).
Proof.
  intros [f0 [Hin0 Hname0]] Hall.
  do 2 eexists. split; [apply built_index|].
  set (lookup := fst (index_of_report verification_data)).
  set (by_name := snd (index_of_report verification_data)).
  set (name := get_default (display_name node) "") in *.
  destruct (find_verification_status_ok node lookup by_name) as [[s'|] [Hf _]].
  - destruct (built_status_provenance _ _ _ Hf) as [f [Hin Hname]].
    rewrite (Hall s' f Hin Hname) in Hf. exact Hf.
  - exfalso. unfold find_verification_status in Hf. fold name in Hf.
    destruct (try_paths_ok lookup name (start_line node)
                [get_default (relative_path node) "";
                 get_default (full_path node) ""]) as [[s'|] [Ht _]];
      rewrite Ht in Hf; cbn [or_else bind] in Hf; [discriminate|].
    rewrite (name_only_unanimous by_name name s) in Hf; [discriminate | |].
    + subst by_name. rewrite built_by_name_named. intros Hnil.
      assert (Hm : In (match_of (s, f0))
                     (map match_of (filter (named name)
                                      (records_in_order verification_data)))).
      { apply in_map. apply filter_In. split; [exact Hin0|].
        apply String.eqb_eq. exact Hname0. }
      rewrite Hnil in Hm. contradiction.
    + subst by_name. rewrite built_by_name_named. intros m Hm.
      apply in_map_iff in Hm. destruct Hm as [[s' f] [<- Hsf]].
      apply filter_In in Hsf. destruct Hsf as [Hin Hnamed].
      apply String.eqb_eq in Hnamed. exact (Hall s' f Hin Hnamed).
Qed.

Lemma unanimous_name_resolves_witness :
  exists lookup by_name,
    build_verification_lookup Scenario.foo_report = Ok (lookup, by_name)
    /\ find_verification_status Scenario.foo_node lookup by_name
       = Ok (Some "verified").
Proof.
  apply (unanimous_name_resolves Scenario.foo_report Scenario.foo_node "verified").
  - exists (Scenario.foo_record "src/a.rs"). vm_compute. auto.
  - vm_compute. intros s' f [H|[H|[H|[]]]] _; injection H as <- _; reflexivity.
Defined.

(** X10. When some record of the node's name has a normalized path that
    is part of, or holds, the normalized first candidate path of the node,
    the path tiers answer: the node resolves to the category of a record
    of its name and never reaches the name-only tier. *)
Theorem overlapping_path_resolves (verification_data : VerificationData)
    (status : string) (func : FunctionRecord) (node : GraphNode) (p : string) :
  In (status, func) (records_in_order verification_data) ->
  record_name func = get_default (display_name node) "" ->
  first_candidate node = Some p ->
  overlap (record_path func) (normalize_path p) = true ->
  exists lookup by_name s,
    build_verification_lookup verification_data = Ok (lookup, by_name)
    /\ try_paths lookup (get_default (display_name node) "") (start_line node)
         [get_default (relative_path node) ""; get_default (full_path node) ""]
       = Ok (Some s)
    /\ find_verification_status node lookup by_name = Ok (Some s)
    /\ exists f, In (s, f) (records_in_order verification_data)
                 /\ record_name f = get_default (display_name node) "".
Proof.
  intros Hin Hname Hcand Hov.
  set (lookup := fst (index_of_report verification_data)).
  set (by_name := snd (index_of_report verification_data)).
  assert (Hget : exists s0, Dict.get key_eq_dec lookup (pair_key func) = Some s0).
  { subst lookup. unfold pair_key. rewrite built_lookup_pair. fold (pair_key func).
    destruct (find_is_some (has_key (pair_key func) pair_key)
                (records_in_order verification_data) (status, func) Hin)
      as [y Hy]; [apply has_key_true; reflexivity|].
    rewrite Hy. eexists. reflexivity. }
  destruct Hget as [s0 Hs0]. apply get_In in Hs0.
  unfold pair_key in Hs0. rewrite Hname in Hs0.
  destruct (match_path_overlap lookup _ p _ s0 (start_line node) Hs0 Hov)
    as [s Hm].
  pose proof (try_paths_first_candidate node lookup _ p s Hcand Hm) as Ht.
  pose proof (find_of_try_paths node lookup by_name s Ht) as Hf.
  exists lookup, by_name, s. split; [apply built_index|].
  split; [exact Ht|]. split; [exact Hf|].
  exact (built_status_provenance _ _ _ Hf).
Qed.

Lemma overlapping_path_resolves_witness :
  exists lookup by_name s,
    build_verification_lookup Scenario.add_report = Ok (lookup, by_name)
    /\ try_paths lookup "add" (Some 99%Z) [""; "lib.rs"] = Ok (Some s)
    /\ find_verification_status
         (mkGraphNode None (Some "add") None (Some "lib.rs") (Some 99%Z) None [])
         lookup by_name = Ok (Some s)
    /\ exists f, In (s, f) (records_in_order Scenario.add_report)
                 /\ record_name f = "add".
Proof.
  apply (overlapping_path_resolves Scenario.add_report "verified"
           Scenario.add_record
           (mkGraphNode None (Some "add") None (Some "lib.rs") (Some 99%Z) None [])
           "lib.rs").
  - vm_compute. left. reflexivity.
  - reflexivity.
  - reflexivity.
  - vm_compute. reflexivity.
Defined.

(** X11. When the exact-triple tier misses on the first candidate path
    (the node has no line, or the triple is no key), the status stored
    under the pair key of that path is returned. *)
Theorem exact_pair_on_first_candidate (node : GraphNode) (lookup : lookup_t)
    (by_name : by_name_t) (p s : string) :
  first_candidate node = Some p ->
  start_line node = None
  \/ Dict.get key_eq_dec lookup
       (Key3 (get_default (display_name node) "") (normalize_path p)
          (start_line node)) = None ->
  Dict.get key_eq_dec lookup
    (Key2 (get_default (display_name node) "") (normalize_path p)) = Some s ->
  find_verification_status node lookup by_name = Ok (Some s).
Proof.
  intros Hcand Hmiss Hpair. apply find_of_try_paths.
  apply (try_paths_first_candidate node lookup _ p s Hcand).
  unfold match_path. rewrite exact_triple_get, exact_pair_get, Hpair.
  destruct Hmiss as [-> | Hk]; [reflexivity|].
  destruct (start_line node); [rewrite Hk|]; reflexivity.
Qed.

Lemma exact_pair_on_first_candidate_witness :
  find_verification_status Scenario.split_node
    (fst (index_of_report Scenario.split_report))
    (snd (index_of_report Scenario.split_report))
  = Ok (Some "verified").
Proof.
  apply (exact_pair_on_first_candidate Scenario.split_node _ _ "src/b.rs").
  - reflexivity.
  - right. vm_compute. reflexivity.
  - vm_compute. reflexivity.
Defined.

(** X12. End to end on the first candidate path: when the triple of the
    node (name, normalized first candidate path, line) is the triple key
    of a record and no later record has the same triple key, the node
    resolves to the category of that record. *)
Theorem exact_record_resolves (verification_data : VerificationData)
    (before after : list (string * FunctionRecord)) (s : string)
    (f : FunctionRecord) (node : GraphNode) (p : string) (line : Z) :
  records_in_order verification_data = before ++ (s, f) :: after ->
  (forall sf, In sf after -> triple_key (snd sf) <> triple_key f) ->
  first_candidate node = Some p ->
  start_line node = Some line ->
  triple_key f
  = Key3 (get_default (display_name node) "") (normalize_path p) (Some line) ->
  exists lookup by_name,
    build_verification_lookup verification_data = Ok (lookup, by_name)
    /\ find_verification_status node lookup by_name = Ok (Some s).
Proof.
  intros Hrec Hlast Hcand Hline Hkey.
  do 2 eexists. split; [apply built_index|].
  apply find_of_try_paths.
  apply (try_paths_first_candidate node _ _ p s Hcand).
  rewrite Hline. apply match_path_triple_hit.
  rewrite built_lookup_triple, <- Hkey, Hrec.
  rewrite rev_app_distr. cbn [rev]. rewrite <- app_assoc, find_app, find_none_all.
  - cbn [app List.find]. rewrite has_key_true by reflexivity. reflexivity.
  - intros sf Hin. apply has_key_false. apply Hlast. apply in_rev. exact Hin.
Qed.

Lemma exact_record_resolves_witness :
  exists lookup by_name,
    build_verification_lookup Scenario.add_report = Ok (lookup, by_name)
    /\ find_verification_status Scenario.add_node lookup by_name
       = Ok (Some "verified").
Proof.
  apply (exact_record_resolves Scenario.add_report [] [] "verified"
           Scenario.add_record Scenario.add_node "crate/crate/src/lib.rs" 10%Z).
  - vm_compute. reflexivity.
  - intros sf [].
  - reflexivity.
  - reflexivity.
  - vm_compute. reflexivity.
Defined.

End IndexProperties.

Section EnrichmentProperties.

(** X13. Running the enrichment pass again on its own output, with the
    same report, changes nothing: it returns the same graph and the same
    statistics. *)
Theorem process_graph_idempotent (graph_data out : GraphData)
    (verification_data : VerificationData) (stats : stats_t) :
  process_graph graph_data verification_data = Ok (out, stats) ->
  process_graph out verification_data = Ok (out, stats).
Proof.
  unfold process_graph.
  destruct (build_verification_lookup verification_data) as [[lookup by_name]|e];
    cbn [bind]; [|discriminate].
  destruct (process_nodes lookup by_name initial_stats
              (get_default (nodes graph_data) [])) as [[nl st]|e] eqn:Ep;
    cbn [bind]; [|discriminate].
  intros H. injection H as <- <-. cbn [nodes graph_extra].
  destruct (nodes graph_data) as [l|]; cbn [option_map get_default] in *.
  - rewrite (process_nodes_again _ _ _ _ _ _ Ep). reflexivity.
  - cbn in Ep. injection Ep as <- <-. reflexivity.
Qed.

Lemma process_graph_idempotent_witness :
  process_graph
    (mkGraphData (Some [set_verification_status Scenario.add_node "verified"]) [])
    Scenario.add_report
  = Ok (mkGraphData
          (Some [set_verification_status Scenario.add_node "verified"]) [],
        [("verified", 1%Z); ("failed", 0%Z); ("unverified", 0%Z); ("unknown", 0%Z)]).
Proof.
  apply (process_graph_idempotent Scenario.add_graph).
  vm_compute. reflexivity.
Defined.

(** X14. The statistics count the answers of the resolver: each of the
    counters [verified], [failed], [unverified] is the number of nodes
    resolved to that outcome, [unknown] is the number of nodes resolved to
    none, and the four counters add up to the number of nodes. *)
Theorem process_graph_statistics (graph_data : GraphData)
    (verification_data : VerificationData) :
  exists lookup by_name out stats,
    build_verification_lookup verification_data = Ok (lookup, by_name)
    /\ process_graph graph_data verification_data = Ok (out, stats)
    /\ counter stats "verified"
       = count_resolved lookup by_name (Some "verified")
           (get_default (nodes graph_data) [])
    /\ counter stats "failed"
       = count_resolved lookup by_name (Some "failed")
           (get_default (nodes graph_data) [])
    /\ counter stats "unverified"
       = count_resolved lookup by_name (Some "unverified")
           (get_default (nodes graph_data) [])
    /\ counter stats "unknown"
       = count_resolved lookup by_name None (get_default (nodes graph_data) [])
    /\ (counter stats "verified" + counter stats "failed"
        + counter stats "unverified" + counter stats "unknown")%Z
       = Z.of_nat (List.length (get_default (nodes graph_data) [])).
Proof.
  pose proof (built_index verification_data) as Hb.
  destruct (built_index_outcomes _ _ _ Hb) as [Hl Hn].
  set (lookup := fst (index_of_report verification_data)) in *.
  set (by_name := snd (index_of_report verification_data)) in *.
  destruct (process_nodes_ok lookup by_name (get_default (nodes graph_data) [])
              initial_stats Hl Hn initial_stats_present)
    as [nl [stats [Hp _]]].
  destruct (process_nodes_counts _ _ _ _ _ _ Hl Hn Hp) as [Hc Hu].
  assert (Hv : counter stats "verified"
               = count_resolved lookup by_name (Some "verified")
                   (get_default (nodes graph_data) [])).
  { rewrite (Hc "verified") by (cbn; auto). reflexivity. }
  assert (Hf : counter stats "failed"
               = count_resolved lookup by_name (Some "failed")
                   (get_default (nodes graph_data) [])).
  { rewrite (Hc "failed") by (cbn; auto). reflexivity. }
  assert (Hun : counter stats "unverified"
                = count_resolved lookup by_name (Some "unverified")
                    (get_default (nodes graph_data) [])).
  { rewrite (Hc "unverified") by (cbn; auto). reflexivity. }
  assert (Hk : counter stats "unknown"
               = count_resolved lookup by_name None
                   (get_default (nodes graph_data) [])).
  { rewrite Hu. reflexivity. }
  exists lookup, by_name.
  exists (mkGraphData (option_map (fun _ => nl) (nodes graph_data))
            (graph_extra graph_data)), stats.
  split; [exact Hb|]. split.
  - unfold process_graph. rewrite Hb. cbn [bind]. rewrite Hp. reflexivity.
  - repeat (split; [assumption|]).
    rewrite Hv, Hf, Hun, Hk. apply count_resolved_partition; assumption.
Qed.

End EnrichmentProperties.

(* ================================================================== *)
(** * Callers of curve25519-dalek functions *)

Section CalledBySignalFacts.
Import CalledBySignal DictFacts.

Lemma mem_set_mono {K V : Type} (eq_dec : forall x y : K, {x = y} + {x <> y})
    (d : list (K * V)) (k k' : K) (v : V) :
  Dict.mem eq_dec d k' = true -> Dict.mem eq_dec (Dict.set eq_dec d k v) k' = true.
Proof.
  intros H. unfold Dict.mem in *. destruct (eq_dec k k') as [<-|Hne].
  - rewrite get_set_same. reflexivity.
  - rewrite get_set_other by exact Hne. exact H.
Qed.

(** The inner loop stores the dict literal of the first qualifying
    dependent, or nothing. *)
Lemma scan_dependents_find (node_by_id : list (string * Node)) (node_id : string)
    (node : Node) (result_map : list (string * Info)) (deps : list string) :
  scan_dependents node_by_id node_id node result_map deps
  = match List.find (qualifies node_by_id) deps with
    | Some dep_id =>
        Dict.set string_dec result_map node_id (call_info node_by_id node dep_id)
    | None => result_map
    end.
Proof.
  induction deps as [|dep_id deps IH]; [reflexivity|].
  cbn [scan_dependents List.find]. unfold qualifies at 1.
  destruct (negb (PyStr.contains "curve25519-dalek" dep_id)); cbn [andb];
    [|exact IH].
  destruct (get_default
              (is_libsignal
                 (get_default (Dict.get string_dec node_by_id dep_id) empty_node))
              false); [reflexivity | exact IH].
Qed.

Lemma index_fold_result (node_list : list Node) (d : list (string * Node)) :
  foldM (fun d n => i <- getitem_id n ;; Ok (Dict.set string_dec d i n)) d node_list
  = Raise KeyError /\ forallb has_id node_list = false
  \/ (exists d', foldM (fun d n => i <- getitem_id n ;; Ok (Dict.set string_dec d i n))
                   d node_list = Ok d')
     /\ forallb has_id node_list = true.
Proof.
  revert d. induction node_list as [|n node_list IH]; intros d.
  - right. split; [exists d; reflexivity | reflexivity].
  - cbn [foldM forallb].
    assert (Hg : getitem_id n
                 = match id n with Some i => Ok i | None => Raise KeyError end)
      by reflexivity.
    assert (Hh : has_id n = match id n with Some _ => true | None => false end)
      by reflexivity.
    rewrite Hg, Hh. destruct (id n) as [i|]; cbn [bind andb].
    + apply IH.
    + left. split; reflexivity.
Qed.

Lemma visit_fold_ok (node_by_id : list (string * Node)) (node_list : list Node)
    (result_map : list (string * Info)) :
  forallb has_id node_list = true ->
  exists m, foldM (visit node_by_id) result_map node_list = Ok m.
Proof.
  revert result_map. induction node_list as [|n node_list IH]; intros result_map H.
  - exists result_map. reflexivity.
  - cbn [forallb] in H. apply andb_true_iff in H. destruct H as [Hn Hl].
    cbn [foldM]. unfold visit at 1.
    assert (Hg : getitem_id n
                 = match id n with Some i => Ok i | None => Raise KeyError end)
      by reflexivity.
    rewrite Hg. unfold has_id in Hn.
    destruct (id n) as [i|]; [|discriminate]. cbn [bind].
    destruct (negb (PyStr.contains "curve25519-dalek" i)); cbn [bind]; apply IH;
      exact Hl.
Qed.

(** Entries are kept or written by the visit of a node of their key. *)
Lemma visit_records_call (node_by_id : list (string * Node))
    (node_list : list Node) (result_map m : list (string * Info)) (node : Node) :
  In node node_list ->
  (forall k info, In (k, info) result_map ->
     records_call node_by_id node_list k info) ->
  visit node_by_id result_map node = Ok m ->
  forall k info, In (k, info) m -> records_call node_by_id node_list k info.
Proof.
  intros Hin Hinv. unfold visit, getitem_id.
  destruct (id node) as [node_id|] eqn:Eid; cbn [bind]; [|discriminate].
  destruct (PyStr.contains "curve25519-dalek" node_id) eqn:Ed; cbn [negb].
  - rewrite scan_dependents_find.
    destruct (List.find (qualifies node_by_id) (get_default (dependents node) []))
      as [dep_id|] eqn:Ef.
    + intros H. injection H as <-. intros k info Hk.
      apply In_set_key in Hk. destruct Hk as [[-> ->]|Hk]; [|exact (Hinv _ _ Hk)].
      pose proof (find_some _ _ Ef) as [_ Hq]. unfold qualifies in Hq.
      apply andb_true_iff in Hq. destruct Hq as [Hnd Hlib].
      apply negb_true_iff in Hnd.
      unfold records_call, call_info. cbn [caller_id dalek_function dalek_path
        caller_name caller_path caller_line github_link].
      split; [exact Ed|]. split; [exact Hnd|]. split.
      * exists node. repeat split; assumption.
      * split; [|reflexivity].
        destruct (Dict.get string_dec node_by_id dep_id) as [dep_node|];
          cbn [get_default] in *; [|discriminate].
        exists dep_node. split; [reflexivity|].
        destruct (is_libsignal dep_node) as [[|]|]; try discriminate.
        repeat split.
    + intros H. injection H as <-. exact Hinv.
  - intros H. injection H as <-. exact Hinv.
Qed.

Lemma visit_fold_records_call (node_by_id : list (string * Node))
    (node_list todo : list Node) (result_map m : list (string * Info)) :
  (forall n, In n todo -> In n node_list) ->
  (forall k info, In (k, info) result_map ->
     records_call node_by_id node_list k info) ->
  foldM (visit node_by_id) result_map todo = Ok m ->
  forall k info, In (k, info) m -> records_call node_by_id node_list k info.
Proof.
  revert result_map. induction todo as [|n todo IH]; intros result_map Hsub Hinv.
  - cbn. intros H. injection H as <-. exact Hinv.
  - cbn [foldM].
    destruct (visit node_by_id result_map n) as [m1|e] eqn:Ev; cbn [bind];
      [|discriminate].
    apply IH.
    + intros n' Hn'. apply Hsub. right. exact Hn'.
    + apply (visit_records_call node_by_id node_list result_map m1 n);
        [apply Hsub; left; reflexivity | exact Hinv | exact Ev].
Qed.

Lemma visit_mem_mono (node_by_id : list (string * Node))
    (result_map m : list (string * Info)) (node : Node) (k : string) :
  visit node_by_id result_map node = Ok m ->
  Dict.mem string_dec result_map k = true -> Dict.mem string_dec m k = true.
Proof.
  unfold visit, getitem_id.
  destruct (id node) as [node_id|]; cbn [bind]; [|discriminate].
  destruct (negb (PyStr.contains "curve25519-dalek" node_id)).
  - intros H. injection H as <-. auto.
  - rewrite scan_dependents_find. intros H. injection H as <-.
    destruct (List.find _ _); [apply mem_set_mono | auto].
Qed.

Lemma visit_fold_mem_mono (node_by_id : list (string * Node))
    (todo : list Node) (result_map m : list (string * Info)) (k : string) :
  foldM (visit node_by_id) result_map todo = Ok m ->
  Dict.mem string_dec result_map k = true -> Dict.mem string_dec m k = true.
Proof.
  revert result_map. induction todo as [|n todo IH]; intros result_map.
  - cbn. intros H. injection H as <-. auto.
  - cbn [foldM].
    destruct (visit node_by_id result_map n) as [m1|e] eqn:Ev; cbn [bind];
      [|discriminate].
    intros Hf Hm. apply (IH m1 Hf). exact (visit_mem_mono _ _ _ _ _ Ev Hm).
Qed.

Lemma visit_fold_complete (node_by_id : list (string * Node))
    (todo : list Node) (result_map m : list (string * Info))
    (node : Node) (node_id dep_id : string) :
  foldM (visit node_by_id) result_map todo = Ok m ->
  In node todo ->
  id node = Some node_id ->
  PyStr.contains "curve25519-dalek" node_id = true ->
  In dep_id (get_default (dependents node) []) ->
  qualifies node_by_id dep_id = true ->
  Dict.mem string_dec m node_id = true.
Proof.
  revert result_map. induction todo as [|n todo IH]; intros result_map Hf Hin;
    [contradiction|].
  intros Hid Hd Hdep Hq. cbn [foldM] in Hf.
  destruct (visit node_by_id result_map n) as [m1|e] eqn:Ev; cbn [bind] in Hf;
    [|discriminate].
  destruct Hin as [->|Hin]; [|exact (IH m1 Hf Hin Hid Hd Hdep Hq)].
  apply (visit_fold_mem_mono _ _ _ _ _ Hf).
  unfold visit, getitem_id in Ev. rewrite Hid in Ev. cbn [bind] in Ev.
  rewrite Hd in Ev. cbn [negb] in Ev. rewrite scan_dependents_find in Ev.
  destruct (find_is_some (qualifies node_by_id)
              (get_default (dependents node) []) dep_id Hdep Hq) as [y Hy].
  rewrite Hy in Ev. injection Ev as <-.
  unfold Dict.mem. rewrite get_set_same. reflexivity.
Qed.

Lemma get_dalek_unfold (data : Data) (result_map : list (string * Info)) :
  get_dalek_functions_called_by_signal data = Ok result_map ->
  exists node_list node_by_id,
    nodes data = Some node_list
    /\ index_by_id node_list = Ok node_by_id
    /\ foldM (visit node_by_id) [] node_list = Ok result_map.
Proof.
  unfold get_dalek_functions_called_by_signal.
  destruct (nodes data) as [node_list|]; cbn [bind]; [|discriminate].
  destruct (index_by_id node_list) as [node_by_id|e] eqn:Ei; cbn [bind];
    [|discriminate].
  intros H. exists node_list, node_by_id. auto.
Qed.

(** X15. The function raises [KeyError] exactly when the document has no
    [nodes] member or some node has no [id]; otherwise it returns a map. *)
Theorem get_dalek_functions_errors (data : Data) :
  match nodes data with
  | None => get_dalek_functions_called_by_signal data = Raise KeyError
  | Some node_list =>
      if forallb has_id node_list
      then exists result_map,
             get_dalek_functions_called_by_signal data = Ok result_map
      else get_dalek_functions_called_by_signal data = Raise KeyError
  end.
Proof.
  unfold get_dalek_functions_called_by_signal.
  destruct (nodes data) as [node_list|]; cbn [bind]; [|reflexivity].
  unfold index_by_id.
  destruct (index_fold_result node_list []) as [[Hr ->]|[[d Hd] Hall]].
  - rewrite Hr. reflexivity.
  - rewrite Hall, Hd. cbn [bind]. exact (visit_fold_ok d node_list [] Hall).
Qed.

(** X16. Every entry of the returned map is keyed by the id of a
    curve25519-dalek node of the graph, and records as caller the first
    dependent of such a node that lies outside curve25519-dalek and is
    indexed as a libsignal node, with that caller's name, path and line and
    the link built from them. *)
Theorem get_dalek_functions_sound (data : Data)
    (result_map : list (string * Info)) :
  get_dalek_functions_called_by_signal data = Ok result_map ->
  exists node_list node_by_id,
    nodes data = Some node_list
    /\ index_by_id node_list = Ok node_by_id
    /\ forall node_id info,
         Dict.get string_dec result_map node_id = Some info ->
         records_call node_by_id node_list node_id info.
Proof.
  intros H. destruct (get_dalek_unfold data result_map H)
    as [node_list [node_by_id [Hn [Hi Hf]]]].
  exists node_list, node_by_id. split; [exact Hn|]. split; [exact Hi|].
  intros node_id info Hg. apply get_In in Hg. revert node_id info Hg.
  apply (visit_fold_records_call node_by_id node_list node_list [] result_map);
    [auto | intros k info [] | exact Hf].
Qed.

Lemma get_dalek_functions_sound_witness :
  exists node_list node_by_id,
    nodes sample = Some node_list
    /\ index_by_id node_list = Ok node_by_id
    /\ forall node_id info,
         Dict.get string_dec
           [("curve25519-dalek/scalar/mul",
             mkInfo "mul" "curve25519-dalek/src/scalar.rs"
               "libsignal/zkgroup/sign" "sign" "rust/zkgroup/src/sign.rs" 77%Z
               "https://github.com/signalapp/libsignal/blob/main/rust/zkgroup/src/sign.rs#L77")]
           node_id = Some info ->
         records_call node_by_id node_list node_id info.
Proof.
  apply (get_dalek_functions_sound sample). vm_compute. reflexivity.
Defined.

(** X17. No caller is missed: a curve25519-dalek node with a dependent
    that lies outside curve25519-dalek and is indexed as a libsignal node
    has an entry in the returned map. *)
Theorem get_dalek_functions_complete (data : Data)
    (result_map : list (string * Info)) (node_list : list Node)
    (node_by_id : list (string * Node)) (node : Node) (node_id dep_id : string) :
  get_dalek_functions_called_by_signal data = Ok result_map ->
  nodes data = Some node_list ->
  index_by_id node_list = Ok node_by_id ->
  In node node_list ->
  id node = Some node_id ->
  PyStr.contains "curve25519-dalek" node_id = true ->
  In dep_id (get_default (dependents node) []) ->
  qualifies node_by_id dep_id = true ->
  Dict.mem string_dec result_map node_id = true.
Proof.
  intros H Hn Hi Hin Hid Hd Hdep Hq.
  destruct (get_dalek_unfold data result_map H) as [l [d [Hn' [Hi' Hf]]]].
  rewrite Hn in Hn'. injection Hn' as <-. rewrite Hi in Hi'. injection Hi' as <-.
  exact (visit_fold_complete _ _ _ _ _ _ _ Hf Hin Hid Hd Hdep Hq).
Qed.

Lemma get_dalek_functions_complete_witness :
  Dict.mem string_dec
    [("curve25519-dalek/scalar/mul",
      mkInfo "mul" "curve25519-dalek/src/scalar.rs"
        "libsignal/zkgroup/sign" "sign" "rust/zkgroup/src/sign.rs" 77%Z
        "https://github.com/signalapp/libsignal/blob/main/rust/zkgroup/src/sign.rs#L77")]
    "curve25519-dalek/scalar/mul" = true.
Proof.
  eapply (get_dalek_functions_complete sample _ _ _
            (mkNode (Some "curve25519-dalek/scalar/mul") (Some "mul")
               (Some "curve25519-dalek/src/scalar.rs") (Some 12%Z)
               (Some ["curve25519-dalek/edwards/mul_base"; "libsignal/zkgroup/sign"])
               None)
            "curve25519-dalek/scalar/mul" "libsignal/zkgroup/sign").
  - vm_compute. reflexivity.
  - reflexivity.
  - vm_compute. reflexivity.
  - left. reflexivity.
  - reflexivity.
  - reflexivity.
  - right. left. reflexivity.
  - vm_compute. reflexivity.
Defined.

End CalledBySignalFacts.
